(** * Supplier recommendation system (supplier.py): model and verification

    The script loads a table of purchase-order lines, imputes missing
    delivery dates, derives lead time, defect rate and price efficiency,
    and answers queries with [recommend_suppliers]: a filter, a group-by
    with aggregation, a cross-tabulation of the order status and a sort.
    When a query has no answer, the thresholds are relaxed and every
    alternative gets a note ([alasan]).

    Numbers: pandas holds the numeric columns as float64.  They are
    modelled here as exact rationals ([Q]); a missing value (NaN, NaT) is
    [None].  Rounding error, signed zeros and overflow of float64 are not
    part of the model; where a property would not survive the rounding it
    is stated on float64 itself (module [F64]).  Timestamps are integers
    (nanoseconds since the epoch, as datetime64[ns]). *)

From Stdlib Require Import ZArith QArith Qround Qabs List String Ascii Bool Lia.
From Stdlib Require Import Permutation Sorted OrderedTypeEx DecimalString.
From Stdlib Require Import Lqa.
From Stdlib Require PrimFloat.
Import ListNotations.

Local Open Scope Z_scope.

(* ================================================================== *)
(** ** Python builtins used by the script *)

Module Py.

Inductive exn : Type := ZeroDivisionError | ValueError.

Inductive result (A : Type) : Type :=
| Ok (a : A)
| Raise (e : exn).
Arguments Ok {A} a.
Arguments Raise {A} e.

Definition bind {A B : Type} (m : result A) (k : A -> result B) : result B :=
  match m with
  | Ok a => k a
  | Raise e => Raise e
  end.

Fixpoint mapM {A B : Type} (f : A -> result B) (l : list A) : result (list B) :=
  match l with
  | [] => Ok []
  | x :: t => bind (f x) (fun y => bind (mapM f t) (fun ys => Ok (y :: ys)))
  end.

(** [a / b] on Python numbers: raises when the divisor is zero. *)
Definition truediv (a b : Q) : result Q :=
  if Qeq_bool b 0 then Raise ZeroDivisionError else Ok (a / b)%Q.

(** [round(x)] with one argument: to the nearest integer, a tie goes to
    the even one. *)
Definition round (q : Q) : Z :=
  let f := Qfloor q in
  match ((q - inject_Z f) ?= (1 # 2))%Q with
  | Lt => f
  | Gt => f + 1
  | Eq => if Z.even f then f else f + 1
  end.

(** [int(x)]: truncation toward zero. *)
Definition int (q : Q) : Z := Z.quot (Qnum q) (Zpos (Qden q)).

(** [abs(x)]. *)
Definition abs (q : Q) : Q := Qabs q.

(** Text within ASCII: every byte is below 128. *)
Fixpoint is_ascii (s : string) : bool :=
  match s with
  | EmptyString => true
  | String c t => (nat_of_ascii c <? 128)%nat && is_ascii t
  end.

(** [str.lower()] on ASCII text: the letters A-Z are lowered, every other
    byte is left.  Python lowers the letters outside ASCII as well; what
    is proved about the matching of texts is stated for ASCII text. *)
Definition lower_ascii (c : ascii) : ascii :=
  let n := nat_of_ascii c in
  if (65 <=? n)%nat && (n <=? 90)%nat then ascii_of_nat (n + 32) else c.

Fixpoint lower (s : string) : string :=
  match s with
  | EmptyString => EmptyString
  | String c t => String (lower_ascii c) (lower t)
  end.

(** Decimal digits of a natural number. *)
Definition digits (z : Z) : string :=
  NilZero.string_of_uint (N.to_uint (Z.to_N z)).

(** The format [:.1f]: one digit after the point, a tie to the even digit. *)
Definition format_1f (q : Q) : string :=
  let t := round (Qabs q * 10)%Q in
  ((if negb (Qle_bool 0 q) then "-" else "") ++ digits (t / 10) ++ "." ++ digits (t mod 10))%string.

(** Thousands separators, on the digits least significant first. *)
Fixpoint commas (ds : list ascii) : list ascii :=
  match ds with
  | a :: b :: c :: ((_ :: _) as rest) => a :: b :: c :: ","%char :: commas rest
  | _ => ds
  end.

(** The format [:,] of an integer. *)
Definition format_comma (z : Z) : string :=
  ((if (z <? 0)%Z then "-" else "") ++
   string_of_list_ascii (rev (commas (rev (list_ascii_of_string (digits (Z.abs z)))))))%string.

(** [", ".join(l)]. *)
Definition join (sep : string) (l : list string) : string := String.concat sep l.

(** [needle in hay] on strings. *)
Definition contains (needle hay : string) : bool :=
  match String.index 0 needle hay with
  | Some _ => true
  | None => false
  end.

End Py.

Notation "x <- m ;; k" := (Py.bind m (fun x => k))
  (at level 61, m at next level, right associativity).

(* ================================================================== *)
(** ** The pandas operations used by the script *)

Module Pd.

(** A timestamp of datetime64[ns]: nanoseconds since 1970-01-01. *)
Definition Timestamp : Type := Z.

Definition ns_per_day : Z := 86400 * 1000000000.

(** Days since 1970-01-01 of a date of the proleptic Gregorian calendar. *)
Definition days_from_civil (y m d : Z) : Z :=
  let y' := if m <=? 2 then y - 1 else y in
  let era := y' / 400 in
  let yoe := y' - era * 400 in
  let doy := (153 * (if m <=? 2 then m + 9 else m - 3) + 2) / 5 + d - 1 in
  let doe := yoe * 365 + yoe / 4 - yoe / 100 + doy in
  era * 146097 + doe - 719468.

(** [pd.to_datetime] of a date written year-month-day: its midnight. *)
Definition to_datetime (y m d : Z) : Timestamp := days_from_civil y m d * ns_per_day.

(** [pd.to_timedelta(n, unit='D')]. *)
Definition to_timedelta_D (n : Z) : Z := n * ns_per_day.

(** [.dt.days] of a difference of timestamps: whole days, rounded down. *)
Definition dt_days (td : Z) : Z := td / ns_per_day.

(** An int64 result: the integer modulo 2^64, between -2^63 and 2^63 - 1. *)
Definition int64 (z : Z) : Z := (z + 2 ^ 63) mod 2 ^ 64 - 2 ^ 63.

(** [dropna] of a column: the values that are present. *)
Fixpoint dropna {A : Type} (l : list (option A)) : list A :=
  match l with
  | [] => []
  | Some a :: t => a :: dropna t
  | None :: t => dropna t
  end.

Definition Qsum (l : list Q) : Q := fold_right Qplus 0%Q l.

(** Mean of a list of numbers; NaN ([None]) when there is none. *)
Definition mean (l : list Q) : option Q :=
  match l with
  | [] => None
  | _ :: _ => Some (Qsum l / inject_Z (Z.of_nat (List.length l)))%Q
  end.

(** [Series.mean()]: missing values are skipped. *)
Definition series_mean (l : list (option Q)) : option Q := mean (dropna l).

(** A float64 that may be infinite or NaN: the result of a vectorised
    division, which does not raise.  [Inf] stands for a value that is not
    finite (an infinity of either sign, or the NaN that sums of infinities
    give); [NaN] for a missing value, which [mean] skips. *)
Inductive xnum : Type :=
| Fin (q : Q)
| Inf
| NaN.

Definition is_nan (x : xnum) : bool :=
  match x with NaN => true | _ => false end.

Definition is_inf (x : xnum) : bool :=
  match x with Inf => true | _ => false end.

Definition finite_part (x : xnum) : option Q :=
  match x with Fin q => Some q | _ => None end.

Definition xmean (l : list xnum) : xnum :=
  let present := filter (fun x => negb (is_nan x)) l in
  if existsb is_inf present then Inf
  else match mean (dropna (map finite_part present)) with
       | Some q => Fin q
       | None => NaN
       end.

(** Lexicographic comparison of tuples of strings (group keys). *)
Fixpoint compare_key (a b : list string) : comparison :=
  match a, b with
  | [], [] => Eq
  | [], _ :: _ => Lt
  | _ :: _, [] => Gt
  | x :: a', y :: b' =>
      match String.compare x y with
      | Eq => compare_key a' b'
      | c => c
      end
  end.

Definition key_eqb (a b : list string) : bool :=
  match compare_key a b with Eq => true | _ => false end.

(** The distinct keys in ascending order. *)
Fixpoint insert_key (k : list string) (l : list (list string)) : list (list string) :=
  match l with
  | [] => [k]
  | h :: t =>
      match compare_key k h with
      | Lt => k :: l
      | Eq => l
      | Gt => h :: insert_key k t
      end
  end.

Definition sorted_keys (l : list (list string)) : list (list string) :=
  fold_right insert_key [] l.

(** [groupby(cols)] with the default [sort=True]: one group per distinct
    key, the keys ascending, each group holding its rows in table order. *)
Definition groupby {R : Type} (key : R -> list string) (df : list R)
  : list (list string * list R) :=
  map (fun k => (k, filter (fun r => key_eqb (key r) k) df))
      (sorted_keys (map key df)).

(** Lookup by label. *)
Fixpoint lookup {V : Type} (k : list string) (l : list (list string * V)) : option V :=
  match l with
  | [] => None
  | (k', v) :: t => if key_eqb k k' then Some v else lookup k t
  end.

(** [sort_values] on several columns: a stable sort by the order [leb]. *)
Fixpoint insert_sorted {R : Type} (leb : R -> R -> bool) (x : R) (l : list R) : list R :=
  match l with
  | [] => [x]
  | h :: t => if leb x h then x :: l else h :: insert_sorted leb x t
  end.

Definition stable_sort {R : Type} (leb : R -> R -> bool) (l : list R) : list R :=
  fold_right (insert_sorted leb) [] l.

End Pd.

(* ================================================================== *)
(** ** The table *)

(** Modelled from the spec: the columns of Data/data_supplier.csv, which is
    not part of the repository, after [read_csv] and [to_datetime] (spec,
    section 3).  [Defective_Units] and [Delivery_Date] may be missing. *)
Module Csv.

Record row : Type := {
  PO_ID : string;
  Supplier : string;
  Item_Category : string;
  Compliance : string;
  Order_Status : string;
  Quantity : Z;
  Defective_Units : option Z;
  Unit_Price : Q;
  Negotiated_Price : Q;
  Order_Date : Pd.Timestamp;
  Delivery_Date : option Pd.Timestamp
}.

End Csv.

(** A row of [df] once the preprocessing is done. *)
Record Row : Type := {
  PO_ID : string;
  Supplier : string;
  Item_Category : string;
  Compliance : string;
  Order_Status : string;
  Quantity : Z;
  Defective_Units : Z;
  Unit_Price : Q;
  Negotiated_Price : Q;
  Order_Date : Pd.Timestamp;
  Delivery_Date : option Pd.Timestamp;
  Lead_Time : option Z;
  Defect_Rate : Q;
  Price_Efficiency : Pd.xnum
}.

(* ================================================================== *)
(** ** Loading and preprocessing (lines 6-40) *)

Definition usd_to_idr : Q := 16000.

(** [(Delivery_Date - Order_Date).dt.days]; missing when the delivery date is. *)
Definition lead_time_days (order : Pd.Timestamp) (delivery : option Pd.Timestamp) : option Z :=
  option_map (fun d => Pd.dt_days (d - order)) delivery.

Definition has_delivery (r : Csv.row) : bool :=
  match Csv.Delivery_Date r with Some _ => true | None => false end.

Definition Lead_Time0 (r : Csv.row) : option Q :=
  option_map inject_Z (lead_time_days (Csv.Order_Date r) (Csv.Delivery_Date r)).

(** Line 20: the mean lead time of every supplier that has a row with a
    delivery date, as a series indexed by supplier. *)
Definition mean_lead_time (df : list Csv.row) : list (list string * option Q) :=
  map (fun kg => (fst kg, Pd.series_mean (map Lead_Time0 (snd kg))))
      (Pd.groupby (fun r => [Csv.Supplier r]) (filter has_delivery df)).

(** Lines 23-27.  [round] of a NaN raises ValueError. *)
Definition isi_delivery_date (mlt : list (list string * option Q)) (row : Csv.row)
  : Py.result (option Pd.Timestamp) :=
  match Csv.Delivery_Date row, Pd.lookup [Csv.Supplier row] mlt with
  | None, Some m =>
      match m with
      | Some q => Py.Ok (Some (Csv.Order_Date row + Pd.to_timedelta_D (Py.round q)))
      | None => Py.Raise Py.ValueError
      end
  | _, _ => Py.Ok (Csv.Delivery_Date row)
  end.

(** Line 32: [fillna(0)]. *)
Definition fillna0 (x : option Z) : Z :=
  match x with Some v => v | None => 0 end.

(** Lines 36-39: the lambda of [Defect_Rate]. *)
Definition defect_rate (defective_units quantity : Z) : Py.result Q :=
  if negb (quantity =? 0)
  then x <- Py.truediv (inject_Z defective_units) (inject_Z quantity) ;; Py.Ok (x * 100)%Q
  else Py.Ok 0%Q.

(** Line 40: a vectorised expression; a zero unit price gives a value that
    is not finite. *)
Definition price_efficiency (negotiated unit : Q) : Pd.xnum :=
  if Qeq_bool unit 0
  then (if Qeq_bool negotiated 0 then Pd.NaN else Pd.Inf)
  else Pd.Fin ((1 - negotiated / unit) * 100)%Q.

(** The columns of a row after lines 29-40, given its imputed delivery
    date and its defect rate. *)
Definition make_row (r : Csv.row) (delivery : option Pd.Timestamp) (rate : Q) : Row :=
  let unit := (Csv.Unit_Price r * usd_to_idr)%Q in
  let negotiated := (Csv.Negotiated_Price r * usd_to_idr)%Q in
  {|
    PO_ID := Csv.PO_ID r;
    Supplier := Csv.Supplier r;
    Item_Category := Csv.Item_Category r;
    Compliance := Csv.Compliance r;
    Order_Status := Csv.Order_Status r;
    Quantity := Csv.Quantity r;
    Defective_Units := fillna0 (Csv.Defective_Units r);
    Unit_Price := unit;
    Negotiated_Price := negotiated;
    Order_Date := Csv.Order_Date r;
    Delivery_Date := delivery;
    Lead_Time := lead_time_days (Csv.Order_Date r) delivery;
    Defect_Rate := rate;
    Price_Efficiency := price_efficiency negotiated unit
  |}.

(** The whole of lines 6-40 on a parsed table, column by column as the
    script runs: the imputation of every row (line 29), then the defect
    rate of every row (line 36).  This is the run on a table that has a
    row; on a file without rows [apply] hands back a frame and the script
    stops at line 29, which the model does not follow. *)
Definition preprocess (raw : list Csv.row) : Py.result (list Row) :=
  let mlt := mean_lead_time raw in
  deliveries <- Py.mapM (isi_delivery_date mlt) raw ;;
  rates <- Py.mapM (fun r => defect_rate (fillna0 (Csv.Defective_Units r)) (Csv.Quantity r)) raw ;;
  Py.Ok (map (fun x => make_row (fst (fst x)) (snd (fst x)) (snd x))
             (combine (combine raw deliveries) rates)).

(* ================================================================== *)
(** ** [recommend_suppliers] (lines 43-101) *)

(** A row of the result: the values of the group columns, the aggregates
    under their new names, and the count of every order status.  A mean is
    a float column, so it may be NaN ([None]). *)
Module Res.

Record row : Type := {
  key : list string;
  Avg_Negotiated_Price : option Q;
  Lead_Time : option Q;
  Defect_Rate_pct : option Q;
  Price_Efficiency_pct : Pd.xnum;
  Total_Quantity : Z;
  Total_Orders : nat;
  status_counts : list (option nat)
}.

End Res.

Record DataFrame : Type := {
  columns : list string;
  rows : list Res.row
}.

(** [pd.DataFrame()]. *)
Definition empty_frame : DataFrame := {| columns := []; rows := [] |}.

(** [DataFrame.empty]: an axis has length zero. *)
Definition empty (d : DataFrame) : bool :=
  (Nat.eqb (List.length (rows d)) 0) || (Nat.eqb (List.length (columns d)) 0).

Definition Qgt_bool (a b : Q) : bool := negb (Qle_bool a b).

(** [column <= bound] on a column that may hold NaN: false on NaN. *)
Definition le_bound (x : option Z) (bound : Q) : bool :=
  match x with
  | Some v => Qle_bool (inject_Z v) bound
  | None => false
  end.

(** Lines 46-47. *)
Definition filter_category (item_category : string) (df : list Row) : list Row :=
  if negb (item_category =? "All")%string
  then filter (fun r => (Py.lower (Item_Category r) =? Py.lower item_category)%string) df
  else df.

(** Lines 49-52. *)
Definition filter_compliance (compliance_preference : string) (df : list Row) : list Row :=
  if (compliance_preference =? "Yes")%string
  then filter (fun r => (Compliance r =? "Yes")%string) df
  else if (compliance_preference =? "No")%string
  then filter (fun r => (Compliance r =? "No")%string) df
  else df.

(** Lines 54-58. *)
Definition filter_thresholds (max_price max_lead_time max_defect_rate : Q) (df : list Row)
  : list Row :=
  filter (fun r => Qle_bool (Negotiated_Price r) max_price
                   && le_bound (Lead_Time r) max_lead_time
                   && Qle_bool (Defect_Rate r) max_defect_rate) df.

(** [filtered_df] at line 60. *)
Definition filtered_df (df : list Row) (item_category : string)
  (max_price max_lead_time max_defect_rate : Q) (compliance_preference : string) : list Row :=
  filter_thresholds max_price max_lead_time max_defect_rate
    (filter_compliance compliance_preference (filter_category item_category df)).

(** Lines 63 and 73-77. *)
Definition group_cols (item_category compliance_preference : string) : list string :=
  ["Supplier"%string]
  ++ (if (item_category =? "All")%string then ["Item_Category"%string] else [])
  ++ (if (compliance_preference =? "All")%string then ["Compliance"%string] else []).

(** The value a row has in a text column. *)
Definition column (c : string) (r : Row) : string :=
  if (c =? "Supplier")%string then Supplier r
  else if (c =? "Item_Category")%string then Item_Category r
  else if (c =? "Compliance")%string then Compliance r
  else if (c =? "Order_Status")%string then Order_Status r
  else if (c =? "PO_ID")%string then PO_ID r
  else ""%string.

Definition group_key (cols : list string) (r : Row) : list string :=
  map (fun c => column c r) cols.

(** The names of the aggregates after [rename] (lines 64-85). *)
Definition agg_columns : list string :=
  ["Avg_Negotiated_Price"; "Lead_Time"; "Defect_Rate (%)"; "Price_Efficiency (%)";
   "Total_Quantity"; "Total_Orders"]%string.

(** Line 79: [agg(agg_dict)] on one group.  The sum of the int64 column
    [Quantity] is an int64 and wraps around. *)
Definition aggregate (k : list string) (g : list Row) : Res.row :=
  {|
    Res.key := k;
    Res.Avg_Negotiated_Price := Pd.mean (map Negotiated_Price g);
    Res.Lead_Time := Pd.series_mean (map (fun r => option_map inject_Z (Lead_Time r)) g);
    Res.Defect_Rate_pct := Pd.mean (map Defect_Rate g);
    Res.Price_Efficiency_pct := Pd.xmean (map Price_Efficiency g);
    Res.Total_Quantity := Pd.int64 (fold_right Z.add 0 (map Quantity g));
    Res.Total_Orders := List.length g;
    Res.status_counts := []
  |}.

(** The distinct values of [Order_Status], ascending: the columns of the
    cross-tabulation. *)
Definition status_columns (df : list Row) : list string :=
  List.concat (Pd.sorted_keys (map (fun r => [Order_Status r]) df)).

(** Lines 88-95: [pd.crosstab] of the group key against [Order_Status]. *)
Definition crosstab (cols : list string) (df : list Row) : list (list string * list nat) :=
  map (fun kg =>
         (fst kg,
          map (fun s => List.length (filter (fun r => (Order_Status r =? s)%string) (snd kg)))
              (status_columns df)))
      (Pd.groupby (group_key cols) df).

(** Line 97: the left join on the group columns.  A group without a row in
    the cross-tabulation would get NaN in every status column. *)
Definition merge (n_status : nat) (counts : list (list string * list nat)) (r : Res.row)
  : Res.row :=
  {|
    Res.key := Res.key r;
    Res.Avg_Negotiated_Price := Res.Avg_Negotiated_Price r;
    Res.Lead_Time := Res.Lead_Time r;
    Res.Defect_Rate_pct := Res.Defect_Rate_pct r;
    Res.Price_Efficiency_pct := Res.Price_Efficiency_pct r;
    Res.Total_Quantity := Res.Total_Quantity r;
    Res.Total_Orders := Res.Total_Orders r;
    Res.status_counts :=
      match Pd.lookup (Res.key r) counts with
      | Some cs => map Some cs
      | None => repeat None n_status
      end
  |}.

(** Ascending order of a float column, NaN last. *)
Definition compare_float (a b : option Q) : comparison :=
  match a, b with
  | Some x, Some y => (x ?= y)%Q
  | Some _, None => Lt
  | None, Some _ => Gt
  | None, None => Eq
  end.

(** Line 100: the order of [by=['Defect_Rate (%)', 'Lead_Time',
    'Avg_Negotiated_Price']]. *)
Definition sort_compare (a b : Res.row) : comparison :=
  match compare_float (Res.Defect_Rate_pct a) (Res.Defect_Rate_pct b) with
  | Eq =>
      match compare_float (Res.Lead_Time a) (Res.Lead_Time b) with
      | Eq => compare_float (Res.Avg_Negotiated_Price a) (Res.Avg_Negotiated_Price b)
      | c => c
      end
  | c => c
  end.

Definition sort_leb (a b : Res.row) : bool :=
  match sort_compare a b with Gt => false | _ => true end.

Definition sort_values (l : list Res.row) : list Res.row := Pd.stable_sort sort_leb l.

(** The result before the sort: one row per group, in key order. *)
Definition grouped (filtered : list Row) (cols : list string) : list Res.row :=
  let result := map (fun kg => aggregate (fst kg) (snd kg))
                    (Pd.groupby (group_key cols) filtered) in
  let status_counts := crosstab cols filtered in
  map (merge (List.length (status_columns filtered)) status_counts) result.

Definition recommend_suppliers (df : list Row) (item_category : string)
  (max_price max_lead_time max_defect_rate : Q) (compliance_preference : string) : DataFrame :=
  let filtered :=
    filtered_df df item_category max_price max_lead_time max_defect_rate compliance_preference in
  match filtered with
  | [] => empty_frame
  | _ :: _ =>
      let cols := group_cols item_category compliance_preference in
      {| columns := cols ++ agg_columns ++ status_columns filtered;
         rows := sort_values (grouped filtered cols) |}
  end.

(* ================================================================== *)
(** ** The search button (lines 127-174) *)

Definition toleransi_defect (max_defect_rate : Q) : Q := (max_defect_rate + 2)%Q.
Definition toleransi_lead (max_lead_time : Q) : Q := (max_lead_time + 2)%Q.
Definition toleransi_price (max_price : Q) : Q := (max_price * (3 # 2))%Q.

(** The two notes on the defect rate: the f-strings of lines 160 and 162. *)
Definition catatan_mendekati (d : Q) : string :=
  ("Defect Rate mendekati batas (" ++ Py.format_1f d ++ "%)")%string.

Definition catatan_melebihi (d : Q) : string :=
  ("Defect Rate " ++ Py.format_1f d ++ "%")%string.

Section Alasan.

(** [str] of a float64, its shortest decimal form that reads back as the
    same float: not defined on rationals, so the note is stated over it. *)
Variable float_str : Q -> string.

Variables max_price max_lead_time max_defect_rate : Q.

(** Lines 159-162: the defect part of the note. *)
Definition alasan_defect (row : Res.row) : list string :=
  match Res.Defect_Rate_pct row with
  | Some d =>
      if Qle_bool (Py.abs (d - max_defect_rate)) 2
      then [catatan_mendekati d]
      else if Qgt_bool d max_defect_rate
      then [catatan_melebihi d]
      else []
  | None => []
  end.

(** Lines 163-164. *)
Definition alasan_price (row : Res.row) : list string :=
  match Res.Avg_Negotiated_Price row with
  | Some p =>
      if Qgt_bool p max_price
      then ["Harga " ++ Py.format_comma (Py.int p) ++ " > "
            ++ Py.format_comma (Py.int max_price)]%string
      else []
  | None => []
  end.

(** Lines 165-166. *)
Definition alasan_lead (row : Res.row) : list string :=
  match Res.Lead_Time row with
  | Some l =>
      if Qgt_bool l max_lead_time
      then ["Lead Time " ++ float_str l ++ " hari"]%string
      else []
  | None => []
  end.

(** Lines 157-167. *)
Definition alasan (row : Res.row) : string :=
  Py.join ", " (alasan_defect row ++ alasan_price row ++ alasan_lead row).

End Alasan.

(** What the page shows after the button is pressed. *)
Inductive tampilan : Type :=
| Hasil (hasil : DataFrame)
| Alternatif (catatan : list (Res.row * string))
| TidakAdaAlternatif.

Definition cari_supplier (float_str : Q -> string) (df : list Row) (item_category : string)
  (max_price max_lead_time max_defect_rate : Q) (compliance_preference : string) : tampilan :=
  let hasil := recommend_suppliers df item_category max_price max_lead_time max_defect_rate
                 compliance_preference in
  if empty hasil then
    let alternatif :=
      recommend_suppliers df item_category (toleransi_price max_price)
        (toleransi_lead max_lead_time) (toleransi_defect max_defect_rate)
        compliance_preference in
    if empty alternatif then TidakAdaAlternatif
    else Alternatif (map (fun row => (row, alasan float_str max_price max_lead_time
                                             max_defect_rate row))
                         (rows alternatif))
  else Hasil hasil.

(* ================================================================== *)
(** ** float64 itself *)

(** The arithmetic of the float columns as the machine does it, for the
    places where rounding decides: the defect rate of lines 36-39, the
    comparison of line 57 and the mean of line 67. *)
Module F64.

Import PrimFloat.

Definition float64 : Set := float.

Definition zero : float64 := 0%float.
Definition hundred : float64 := 100%float.



(** Lines 36-39 on float64. *)
Definition defect_rate (defective_units quantity : float64) : float64 :=
  if PrimFloat.eqb quantity zero then zero
  else PrimFloat.mul (PrimFloat.div defective_units quantity) hundred.






End F64.

(* ================================================================== *)
(** ** Statements of the specification, for comparison with the code *)

(** Two bytes that are the same letter, in whatever case, or the same byte:
    said without [lower]. *)
Definition same_letter (c d : ascii) : bool :=
  let n := nat_of_ascii c in
  let m := nat_of_ascii d in
  (n =? m)%nat
  || ((65 <=? n)%nat && (n <=? 90)%nat && (m =? n + 32)%nat)
  || ((65 <=? m)%nat && (m <=? 90)%nat && (n =? m + 32)%nat).

(** Two texts of the same length whose bytes differ by the case of a
    letter at most. *)
Fixpoint equal_ignoring_case (s t : string) : bool :=
  match s, t with
  | EmptyString, EmptyString => true
  | String c s', String d t' => same_letter c d && equal_ignoring_case s' t'
  | _, _ => false
  end.

(** Section 4.2: the predicates a kept row satisfies, all of them. *)
Definition spec_keeps (item_category : string) (max_price max_lead_time max_defect_rate : Q)
  (compliance_preference : string) (r : Row) : bool :=
  ((item_category =? "All")%string
   || equal_ignoring_case (Item_Category r) item_category)
  && ((compliance_preference =? "All")%string
      || (Compliance r =? compliance_preference)%string)
  && Qle_bool (Negotiated_Price r) max_price
  && le_bound (Lead_Time r) max_lead_time
  && Qle_bool (Defect_Rate r) max_defect_rate.

(** The values section 6 allows for [compliance_preference]. *)
Definition compliance_choices : list string := ["All"; "Yes"; "No"]%string.

Definition key_lt (a b : list string) : Prop := Pd.compare_key a b = Lt.

(** Section 3: the mean of the lead times a supplier's rows have before the
    imputation; a row without a delivery date has none and is skipped. *)
Definition spec_mean_lead_time (raw : list Csv.row) (supplier : string) : option Q :=
  Pd.series_mean
    (map Lead_Time0 (filter (fun r => (Csv.Supplier r =? supplier)%string) raw)).

(** The value a computation returns, [d] if it raises. *)
Definition value_or {A : Type} (d : A) (m : Py.result A) : A :=
  match m with
  | Py.Ok a => a
  | Py.Raise _ => d
  end.

(** The row the preprocessing makes of a row of the file, when nothing
    raises. *)
Definition prepared (raw : list Csv.row) (r : Csv.row) : Row :=
  make_row r
    (value_or None (isi_delivery_date (mean_lead_time raw) r))
    (value_or 0%Q (defect_rate (fillna0 (Csv.Defective_Units r)) (Csv.Quantity r))).

(** A row whose delivery date is known once the imputation is done. *)
Definition delivered (row : Row) : bool :=
  match Delivery_Date row with Some _ => true | None => false end.

(** What makes a three-way comparison an order with ties. *)
Record ordering {A : Type} (cmp : A -> A -> comparison) : Prop := {
  ord_antisym : forall a b, cmp b a = CompOpp (cmp a b);
  ord_lt_trans : forall a b c, cmp a b = Lt -> cmp b c = Lt -> cmp a c = Lt;
  ord_eq_trans : forall a b c, cmp a b = Eq -> cmp b c = Eq -> cmp a c = Eq;
  ord_lt_eq : forall a b c, cmp a b = Lt -> cmp b c = Eq -> cmp a c = Lt;
  ord_eq_lt : forall a b c, cmp a b = Eq -> cmp b c = Lt -> cmp a c = Lt
}.

(** [a] stands before [b] in a stable ascending sort: it is smaller, or it
    ties with [b] and came first. *)
Definition ranked {A : Type} (cmp : A -> A -> comparison) (before : A -> A -> Prop)
  (a b : A) : Prop :=
  cmp a b = Lt \/ (cmp a b = Eq /\ before a b).

(** The order of the group keys, on the rows of a result. *)
Definition key_before (a b : Res.row) : Prop := key_lt (Res.key a) (Res.key b).

(** A float column holds the number [q]. *)
Definition holds (x : option Q) (q : Q) : Prop :=
  exists v, x = Some v /\ (v == q)%Q.

(** Section 4.2, the sort order: [a] is listed before [b] when its defect
    rate is smaller; on equal defect rates, when its lead time is smaller;
    on equal lead times too, when its price is smaller; and on a tie of all
    three, when its group key comes first. *)
Definition spec_before (a b : Res.row) : Prop :=
  exists da la pa db lb pb,
    Res.Defect_Rate_pct a = Some da /\ Res.Lead_Time a = Some la
    /\ Res.Avg_Negotiated_Price a = Some pa
    /\ Res.Defect_Rate_pct b = Some db /\ Res.Lead_Time b = Some lb
    /\ Res.Avg_Negotiated_Price b = Some pb
    /\ ((da < db)%Q
        \/ ((da == db)%Q
            /\ ((la < lb)%Q
                \/ ((la == lb)%Q
                    /\ ((pa < pb)%Q
                        \/ ((pa == pb)%Q /\ key_lt (Res.key a) (Res.key b))))))).

(* ================================================================== *)
(** ** Sample tables *)

Definition baris (po supplier category compliance status : string) (quantity : Z)
  (defective : option Z) (unit negotiated : Q) (order : Pd.Timestamp)
  (delivery : option Pd.Timestamp) : Csv.row :=
  {| Csv.PO_ID := po; Csv.Supplier := supplier; Csv.Item_Category := category;
     Csv.Compliance := compliance; Csv.Order_Status := status; Csv.Quantity := quantity;
     Csv.Defective_Units := defective; Csv.Unit_Price := unit;
     Csv.Negotiated_Price := negotiated; Csv.Order_Date := order;
     Csv.Delivery_Date := delivery |}.

(** Three suppliers with defect rates 5, 2 and 2 and lead times 3, 1 and 4. *)
Definition contoh_urut_csv : list Csv.row :=
  [ baris "PO-1" "Alpha" "Office" "Yes" "Closed" 100 (Some 5) 12 10
      (Pd.to_datetime 2024 1 1) (Some (Pd.to_datetime 2024 1 4));
    baris "PO-2" "Beta" "Office" "Yes" "Open" 100 (Some 2) 12 10
      (Pd.to_datetime 2024 1 1) (Some (Pd.to_datetime 2024 1 2));
    baris "PO-3" "Gamma" "Office" "No" "Closed" 100 (Some 2) 12 10
      (Pd.to_datetime 2024 1 1) (Some (Pd.to_datetime 2024 1 5)) ]%string.

Definition contoh_urut : list Row := value_or [] (preprocess contoh_urut_csv).

(** A supplier with the lead times 3, 5 and 7, a row of it without a
    delivery date, and a row of a supplier that has none at all. *)
Definition contoh_imputasi_csv : list Csv.row :=
  [ baris "PO-1" "Alpha" "Office" "Yes" "Closed" 100 (Some 2) 12 10
      (Pd.to_datetime 2023 12 1) (Some (Pd.to_datetime 2023 12 4));
    baris "PO-2" "Alpha" "Office" "Yes" "Closed" 100 None 12 10
      (Pd.to_datetime 2023 12 1) (Some (Pd.to_datetime 2023 12 6));
    baris "PO-3" "Alpha" "Office" "Yes" "Open" 0 (Some 0) 12 10
      (Pd.to_datetime 2023 12 1) (Some (Pd.to_datetime 2023 12 8));
    baris "PO-4" "Alpha" "Office" "No" "Open" 100 (Some 2) 12 10
      (Pd.to_datetime 2024 1 1) None;
    baris "PO-5" "Beta" "Office" "No" "Open" 100 (Some 2) 12 10
      (Pd.to_datetime 2024 1 1) None ]%string.

Definition contoh_imputasi : list Row := value_or [] (preprocess contoh_imputasi_csv).

(** Two suppliers with defect rates 6.5 and 5.5. *)
Definition contoh_alternatif_csv : list Csv.row :=
  [ baris "PO-1" "Delta" "Office" "Yes" "Closed" 200 (Some 13) 12 10
      (Pd.to_datetime 2024 1 1) (Some (Pd.to_datetime 2024 1 4));
    baris "PO-2" "Epsilon" "Office" "Yes" "Open" 200 (Some 11) 12 10
      (Pd.to_datetime 2024 1 1) (Some (Pd.to_datetime 2024 1 4)) ]%string.

Definition contoh_alternatif : list Row := value_or [] (preprocess contoh_alternatif_csv).

(** The columns of a result row that the sort reads, in lowest terms, after
    its key. *)
Definition ringkas (row : Res.row) : list string * option Q * option Q * option Q :=
  (Res.key row, option_map Qred (Res.Defect_Rate_pct row),
   option_map Qred (Res.Lead_Time row), option_map Qred (Res.Avg_Negotiated_Price row)).

(** The rows [contoh_alternatif] gives once the thresholds 200000, 10 and
    5 are relaxed. *)
Definition baris_epsilon : Res.row :=
  {| Res.key := ["Epsilon"; "Office"; "Yes"]%string;
     Res.Avg_Negotiated_Price := Some 160000%Q;
     Res.Lead_Time := Some 3%Q;
     Res.Defect_Rate_pct := Some (1100 # 200)%Q;
     Res.Price_Efficiency_pct := Pd.Fin (3200000 # 192000)%Q;
     Res.Total_Quantity := 200;
     Res.Total_Orders := 1;
     Res.status_counts := [Some 0%nat; Some 1%nat] |}.

Definition baris_delta : Res.row :=
  {| Res.key := ["Delta"; "Office"; "Yes"]%string;
     Res.Avg_Negotiated_Price := Some 160000%Q;
     Res.Lead_Time := Some 3%Q;
     Res.Defect_Rate_pct := Some (1300 # 200)%Q;
     Res.Price_Efficiency_pct := Pd.Fin (3200000 # 192000)%Q;
     Res.Total_Quantity := 200;
     Res.Total_Orders := 1;
     Res.status_counts := [Some 1%nat; Some 0%nat] |}.

(* ================================================================== *)
(** ** Further parts of the script *)

(** Line 108: the options of the category select box, "All" and then the
    distinct categories of the table in ascending order. *)
Definition item_categories (df : list Row) : list string :=
  "All"%string :: List.concat (Pd.sorted_keys (map (fun r => [Item_Category r]) df)).

(** The test a row passes to be kept by lines 46-58, whatever the
    compliance preference is. *)
Definition keeps_row (item_category : string) (max_price max_lead_time max_defect_rate : Q)
  (compliance_preference : string) (r : Row) : bool :=
  ((item_category =? "All")%string
   || (Py.lower (Item_Category r) =? Py.lower item_category)%string)
  && ((if (compliance_preference =? "Yes")%string then (Compliance r =? "Yes")%string
       else if (compliance_preference =? "No")%string then (Compliance r =? "No")%string
       else true)
      && (Qle_bool (Negotiated_Price r) max_price
          && le_bound (Lead_Time r) max_lead_time
          && Qle_bool (Defect_Rate r) max_defect_rate)).

Definition Zsum (l : list Z) : Z := fold_right Z.add 0 l.

(* ================================================================== *)
(** * Properties *)

(** ** Group keys and their order *)

Lemma string_compare_refl (s : string) : String.compare s s = Eq.
Proof. now apply String_as_OT.cmp_eq. Qed.

Lemma string_compare_trans (a b c : string) :
  String.compare a b = Lt -> String.compare b c = Lt -> String.compare a c = Lt.
Proof.
  intros H1 H2.
  apply String_as_OT.cmp_lt.
  apply String_as_OT.lt_trans with b; now apply String_as_OT.cmp_lt.
Qed.

Lemma compare_key_eq (a b : list string) : Pd.compare_key a b = Eq <-> a = b.
Proof.
  revert b; induction a as [|x a IH]; intros [|y b]; simpl; try (split; congruence).
  destruct (String.compare x y) eqn:E.
  - apply String.compare_eq_iff in E; subst y.
    rewrite IH. split; congruence.
  - split; [discriminate|]. intros H; injection H as -> _.
    now rewrite string_compare_refl in E.
  - split; [discriminate|]. intros H; injection H as -> _.
    now rewrite string_compare_refl in E.
Qed.

Lemma compare_key_refl (a : list string) : Pd.compare_key a a = Eq.
Proof. now apply compare_key_eq. Qed.

Lemma compare_key_antisym (a b : list string) :
  Pd.compare_key b a = CompOpp (Pd.compare_key a b).
Proof.
  revert b; induction a as [|x a IH]; intros [|y b]; simpl; auto.
  rewrite (String.compare_antisym y x).
  destruct (String.compare x y); simpl; auto.
Qed.

Lemma compare_key_trans (a b c : list string) :
  Pd.compare_key a b = Lt -> Pd.compare_key b c = Lt -> Pd.compare_key a c = Lt.
Proof.
  revert b c; induction a as [|x a IH]; intros [|y b] [|z c]; simpl; try congruence.
  destruct (String.compare x y) eqn:Exy; try discriminate.
  - apply String.compare_eq_iff in Exy; subst y.
    destruct (String.compare x z); try congruence. apply IH.
  - intros _. destruct (String.compare y z) eqn:Eyz; try discriminate.
    + apply String.compare_eq_iff in Eyz; subst z. now rewrite Exy.
    + intros _. now rewrite (string_compare_trans _ _ _ Exy Eyz).
Qed.

Lemma key_eqb_eq (a b : list string) : Pd.key_eqb a b = true <-> a = b.
Proof.
  unfold Pd.key_eqb. rewrite <- compare_key_eq.
  destruct (Pd.compare_key a b); split; congruence.
Qed.

Lemma key_eqb_refl (a : list string) : Pd.key_eqb a a = true.
Proof. now apply key_eqb_eq. Qed.

Lemma In_insert_key (k x : list string) (l : list (list string)) :
  In x (Pd.insert_key k l) <-> x = k \/ In x l.
Proof.
  induction l as [|h t IH]; simpl.
  - intuition.
  - destruct (Pd.compare_key k h) eqn:E; simpl.
    + apply compare_key_eq in E; subst h. intuition.
    + intuition.
    + rewrite IH. intuition.
Qed.

Lemma In_sorted_keys (x : list string) (l : list (list string)) :
  In x (Pd.sorted_keys l) <-> In x l.
Proof.
  induction l as [|h t IH]; simpl; [tauto|].
  rewrite In_insert_key, IH. intuition.
Qed.

Lemma insert_key_sorted (k : list string) (l : list (list string)) :
  StronglySorted key_lt l -> StronglySorted key_lt (Pd.insert_key k l).
Proof.
  induction 1 as [|h t Hs IH Hh]; simpl.
  - repeat constructor.
  - destruct (Pd.compare_key k h) eqn:E.
    + now constructor.
    + constructor; [now constructor|].
      constructor; [exact E|].
      eapply Forall_impl; [|exact Hh].
      intros y Hy. now apply compare_key_trans with h.
    + constructor; [exact IH|].
      apply Forall_forall. intros y Hy.
      apply In_insert_key in Hy as [->|Hy].
      * unfold key_lt. rewrite compare_key_antisym, E. reflexivity.
      * rewrite Forall_forall in Hh. now apply Hh.
Qed.

Lemma sorted_keys_sorted (l : list (list string)) : StronglySorted key_lt (Pd.sorted_keys l).
Proof.
  induction l; simpl; [constructor | now apply insert_key_sorted].
Qed.

(** ** [groupby] *)

Lemma lookup_map_keys {V : Type} (F : list string -> V) (k : list string)
  (ks : list (list string)) :
  Pd.lookup k (map (fun k' => (k', F k')) ks) = if in_dec (list_eq_dec string_dec) k ks then Some (F k) else None.
Proof.
  induction ks as [|h t IH]; simpl; [reflexivity|].
  destruct (Pd.key_eqb k h) eqn:E.
  - apply key_eqb_eq in E; subst h.
    destruct (list_eq_dec string_dec k k); [reflexivity|congruence].
  - rewrite IH.
    destruct (list_eq_dec string_dec h k) as [->|Hne].
    + now rewrite key_eqb_refl in E.
    + destruct (in_dec (list_eq_dec string_dec) k t); reflexivity.
Qed.

Lemma lookup_groupby_Some {R : Type} (key : R -> list string) (df : list R) (r : R) :
  In r df ->
  Pd.lookup (key r) (Pd.groupby key df)
  = Some (filter (fun x => Pd.key_eqb (key x) (key r)) df).
Proof.
  intros Hin. unfold Pd.groupby.
  rewrite (lookup_map_keys (fun k => filter (fun x => Pd.key_eqb (key x) k) df)).
  destruct (in_dec _ (key r) _) as [_|Hn]; [reflexivity|].
  exfalso. apply Hn. apply In_sorted_keys. now apply in_map.
Qed.

Lemma lookup_groupby_None {R : Type} (key : R -> list string) (df : list R) (k : list string) :
  (forall r, In r df -> key r <> k) ->
  Pd.lookup k (Pd.groupby key df) = None.
Proof.
  intros Hno. unfold Pd.groupby.
  rewrite (lookup_map_keys (fun k => filter (fun x => Pd.key_eqb (key x) k) df)).
  destruct (in_dec _ k _) as [Hi|_]; [|reflexivity].
  exfalso. apply In_sorted_keys, in_map_iff in Hi as (r & Hk & Hr).
  now apply (Hno r).
Qed.

Lemma lookup_map_snd {V W : Type} (f : list V -> W) (k : list string)
  (l : list (list string * list V)) :
  Pd.lookup k (map (fun kg => (fst kg, f (snd kg))) l) = option_map f (Pd.lookup k l).
Proof.
  induction l as [|[k' g] t IH]; simpl; [reflexivity|].
  destruct (Pd.key_eqb k k'); [reflexivity|exact IH].
Qed.

Lemma In_groupby {R : Type} (key : R -> list string) (df : list R) (k : list string)
  (g : list R) :
  In (k, g) (Pd.groupby key df) ->
  g = filter (fun x => Pd.key_eqb (key x) k) df /\ exists r, In r df /\ key r = k.
Proof.
  unfold Pd.groupby. intros H.
  apply in_map_iff in H as (k' & Heq & Hk').
  injection Heq as -> <-. split; [reflexivity|].
  apply In_sorted_keys, in_map_iff in Hk' as (r & Hr & Hin). eauto.
Qed.

Lemma groupby_group_nonempty {R : Type} (key : R -> list string) (df : list R)
  (k : list string) (g : list R) :
  In (k, g) (Pd.groupby key df) ->
  g <> [] /\ forall x, In x g -> In x df /\ key x = k.
Proof.
  intros H. apply In_groupby in H as (-> & r & Hr & Hk). split.
  - intros Hnil.
    assert (Hin : In r (filter (fun x => Pd.key_eqb (key x) k) df)).
    { apply filter_In. split; [exact Hr|]. now apply key_eqb_eq. }
    rewrite Hnil in Hin. contradiction.
  - intros x Hx. apply filter_In in Hx as [Hx Hk']. split; [exact Hx|].
    now apply key_eqb_eq.
Qed.

Lemma groupby_keys {R : Type} (key : R -> list string) (df : list R) :
  map fst (Pd.groupby key df) = Pd.sorted_keys (map key df).
Proof.
  unfold Pd.groupby. rewrite map_map. simpl. apply map_id.
Qed.

(** ** The filter of [recommend_suppliers] *)

Lemma filter_filter_and {A : Type} (f g : A -> bool) (l : list A) :
  filter f (filter g l) = filter (fun x => g x && f x) l.
Proof.
  induction l as [|x l IH]; simpl; [reflexivity|].
  destruct (g x); simpl; [destruct (f x)|]; now rewrite IH.
Qed.

Lemma filter_true {A : Type} (l : list A) : filter (fun _ => true) l = l.
Proof. induction l; simpl; congruence. Qed.

Lemma filter_category_filter (item_category : string) (df : list Row) :
  filter_category item_category df
  = filter (fun r => (item_category =? "All")%string
                     || (Py.lower (Item_Category r) =? Py.lower item_category)%string) df.
Proof.
  unfold filter_category.
  destruct (item_category =? "All")%string; simpl; [|reflexivity].
  symmetry. apply filter_true.
Qed.

Lemma filter_compliance_filter (compliance_preference : string) (df : list Row) :
  In compliance_preference compliance_choices ->
  filter_compliance compliance_preference df
  = filter (fun r => (compliance_preference =? "All")%string
                     || (Compliance r =? compliance_preference)%string) df.
Proof.
  unfold filter_compliance, compliance_choices. simpl.
  intros [<-|[<-|[<-|[]]]]; simpl; [|reflexivity|reflexivity].
  symmetry. apply filter_true.
Qed.

(** Lines 49-52 filter on "Yes" and on "No" only. *)
Lemma filter_compliance_other (compliance_preference : string) (df : list Row) :
  compliance_preference <> "Yes"%string -> compliance_preference <> "No"%string ->
  filter_compliance compliance_preference df = df.
Proof.
  intros Hy Hn. unfold filter_compliance.
  apply String.eqb_neq in Hy, Hn. now rewrite Hy, Hn.
Qed.

Lemma le_bound_true (x : option Z) (bound : Q) :
  le_bound x bound = true <-> exists l, x = Some l /\ (inject_Z l <= bound)%Q.
Proof.
  destruct x as [v|]; simpl.
  - rewrite Qle_bool_iff. split.
    + intros H. exists v. auto.
    + intros (l & [= ->] & H). exact H.
  - split; [discriminate|]. intros (l & H & _). discriminate.
Qed.

(** Matching by [lower] is matching up to the case of the letters. *)
Lemma lower_ascii_same (c d : ascii) :
  Py.lower_ascii c = Py.lower_ascii d <-> same_letter c d = true.
Proof.
  unfold Py.lower_ascii, same_letter.
  pose proof (nat_ascii_bounded c) as Bc. pose proof (nat_ascii_bounded d) as Bd.
  assert (Inj : forall a b : ascii, nat_of_ascii a = nat_of_ascii b -> a = b).
  { intros a b H. rewrite <- (ascii_nat_embedding a), <- (ascii_nat_embedding b).
    now rewrite H. }
  assert (Up : forall n, (n < 224)%nat -> nat_of_ascii (ascii_of_nat (n + 32)) = (n + 32)%nat).
  { intros n Hn. apply nat_ascii_embedding. lia. }
  rewrite !orb_true_iff, !andb_true_iff, !Nat.eqb_eq, !Nat.leb_le.
  assert (T : forall n, (65 <=? n)%nat && (n <=? 90)%nat = true -> (65 <= n <= 90)%nat).
  { intros n H. apply andb_true_iff in H. rewrite !Nat.leb_le in H. exact H. }
  assert (F : forall n, (65 <=? n)%nat && (n <=? 90)%nat = false -> (n < 65 \/ 90 < n)%nat).
  { intros n H. apply andb_false_iff in H. rewrite !Nat.leb_gt in H. exact H. }
  destruct ((65 <=? nat_of_ascii c)%nat && (nat_of_ascii c <=? 90)%nat) eqn:Ec;
    destruct ((65 <=? nat_of_ascii d)%nat && (nat_of_ascii d <=? 90)%nat) eqn:Ed;
    try apply T in Ec; try apply T in Ed; try apply F in Ec; try apply F in Ed.
  - assert (Uc := Up (nat_of_ascii c)). assert (Ud := Up (nat_of_ascii d)). split.
    + intros H. apply (f_equal nat_of_ascii) in H. rewrite Uc, Ud in H; lia.
    + intros [[H|[R H]]|[R H]]; try (exfalso; lia). now rewrite H.
  - assert (Uc := Up (nat_of_ascii c)). split.
    + intros H. apply (f_equal nat_of_ascii) in H. rewrite Uc in H; lia.
    + intros [[H|[R H]]|[R H]]; try (exfalso; lia); apply Inj; rewrite Uc; lia.
  - assert (Ud := Up (nat_of_ascii d)). split.
    + intros H. apply (f_equal nat_of_ascii) in H. rewrite Ud in H; lia.
    + intros [[H|[R H]]|[R H]]; try (exfalso; lia); apply Inj; rewrite Ud; lia.
  - split.
    + intros ->. lia.
    + intros [[H|[R H]]|[R H]]; try (exfalso; lia). now apply Inj.
Qed.

Lemma lower_eq_iff (s t : string) :
  Py.lower s = Py.lower t <-> equal_ignoring_case s t = true.
Proof.
  revert t. induction s as [|c s IH]; intros [|d t]; simpl; try (split; congruence).
  rewrite andb_true_iff, <- IH, <- lower_ascii_same. split.
  - intros H. injection H as H1 H2. auto.
  - intros [H1 H2]. congruence.
Qed.

Lemma lower_eqb (s t : string) :
  (Py.lower s =? Py.lower t)%string = equal_ignoring_case s t.
Proof.
  destruct (equal_ignoring_case s t) eqn:E.
  - apply String.eqb_eq. now apply lower_eq_iff.
  - apply String.eqb_neq. intros H. apply lower_eq_iff in H. congruence.
Qed.

Lemma spec_keeps_true (cat : string) (mp ml md : Q) (pref : string) (r : Row) :
  spec_keeps cat mp ml md pref r = true <->
  (cat = "All"%string \/ equal_ignoring_case (Item_Category r) cat = true)
  /\ (pref = "All"%string \/ Compliance r = pref)
  /\ (Negotiated_Price r <= mp)%Q
  /\ (exists l, Lead_Time r = Some l /\ (inject_Z l <= ml)%Q)
  /\ (Defect_Rate r <= md)%Q.
Proof.
  unfold spec_keeps.
  rewrite !andb_true_iff, !orb_true_iff, !String.eqb_eq, !Qle_bool_iff, le_bound_true.
  tauto.
Qed.

Lemma filtered_df_filter (df : list Row) (cat : string) (mp ml md : Q) (pref : string) :
  In pref compliance_choices ->
  filtered_df df cat mp ml md pref = filter (spec_keeps cat mp ml md pref) df.
Proof.
  intros Hp. unfold filtered_df, filter_thresholds.
  rewrite (filter_compliance_filter _ _ Hp), filter_category_filter.
  rewrite !filter_filter_and.
  apply filter_ext. intros r. unfold spec_keeps.
  now rewrite lower_eqb, !andb_assoc.
Qed.

(** C5: for a query and a table whose categories are ASCII text, and a
    compliance preference among "All", "Yes" and "No", the rows
    [recommend_suppliers] keeps are exactly the rows of the table, in table
    order, that satisfy every predicate: the category equal to the query's
    but for the case of its letters unless the query says "All", the
    compliance equal to the preference unless it is "All", and the three
    inclusive thresholds. *)
Theorem filtered_df_keeps (df : list Row) (cat : string) (mp ml md : Q) (pref : string) :
  In pref compliance_choices ->
  Py.is_ascii cat = true ->
  forallb (fun r => Py.is_ascii (Item_Category r)) df = true ->
  filtered_df df cat mp ml md pref = filter (spec_keeps cat mp ml md pref) df
  /\ forall r : Row,
       In r (filtered_df df cat mp ml md pref) <->
       In r df
       /\ (cat = "All"%string \/ equal_ignoring_case (Item_Category r) cat = true)
       /\ (pref = "All"%string \/ Compliance r = pref)
       /\ (Negotiated_Price r <= mp)%Q
       /\ (exists l, Lead_Time r = Some l /\ (inject_Z l <= ml)%Q)
       /\ (Defect_Rate r <= md)%Q.
Proof.
  intros Hp _ _. split; [now apply filtered_df_filter|].
  intros r. rewrite (filtered_df_filter _ _ _ _ _ _ Hp), filter_In, spec_keeps_true.
  tauto.
Qed.

Lemma filter_length_le {A : Type} (f g : A -> bool) (l : list A) :
  (forall x, In x l -> f x = true -> g x = true) ->
  (List.length (filter f l) <= List.length (filter g l))%nat.
Proof.
  induction l as [|x l IH]; intros H; simpl; [lia|].
  assert (IH' := IH (fun y Hy => H y (or_intror Hy))).
  specialize (H x (or_introl eq_refl)).
  destruct (f x); [rewrite H by reflexivity; simpl; lia|].
  destruct (g x); simpl; lia.
Qed.

Lemma le_bound_mono (x : option Z) (b b' : Q) :
  (b <= b')%Q -> le_bound x b = true -> le_bound x b' = true.
Proof.
  destruct x as [v|]; simpl; [|auto].
  rewrite !Qle_bool_iff. intros H1 H2. now apply Qle_trans with b.
Qed.

Lemma thresholds_mono (mp ml md mp' ml' md' : Q) (r : Row) :
  (mp <= mp')%Q -> (ml <= ml')%Q -> (md <= md')%Q ->
  Qle_bool (Negotiated_Price r) mp && le_bound (Lead_Time r) ml
    && Qle_bool (Defect_Rate r) md = true ->
  Qle_bool (Negotiated_Price r) mp' && le_bound (Lead_Time r) ml'
    && Qle_bool (Defect_Rate r) md' = true.
Proof.
  intros Hp Hl Hd. rewrite !andb_true_iff, !Qle_bool_iff.
  intros [[H1 H2] H3]. repeat split.
  - now apply Qle_trans with mp.
  - now apply le_bound_mono with ml.
  - now apply Qle_trans with md.
Qed.

(** C6: raising [max_price], [max_lead_time] or [max_defect_rate] (one of
    them, or several), the category and the compliance preference being
    the same, never makes the filtered set smaller: every row kept before
    is still kept, and the number of kept rows does not decrease. *)
Theorem filter_monotone (df : list Row) (cat pref : string) (mp ml md mp' ml' md' : Q) :
  (mp <= mp')%Q -> (ml <= ml')%Q -> (md <= md')%Q ->
  (List.length (filtered_df df cat mp ml md pref)
   <= List.length (filtered_df df cat mp' ml' md' pref))%nat
  /\ incl (filtered_df df cat mp ml md pref) (filtered_df df cat mp' ml' md' pref).
Proof.
  intros Hp Hl Hd. unfold filtered_df, filter_thresholds. split.
  - apply filter_length_le. intros r _. now apply thresholds_mono.
  - intros r. rewrite !filter_In. intros [Hin Hk]. split; [exact Hin|].
    revert Hk. now apply thresholds_mono.
Qed.

(** ** Empty results *)

Lemma insert_sorted_length {R : Type} (leb : R -> R -> bool) (x : R) (l : list R) :
  List.length (Pd.insert_sorted leb x l) = S (List.length l).
Proof.
  induction l as [|h t IH]; simpl; [reflexivity|].
  destruct (leb x h); simpl; congruence.
Qed.

Lemma stable_sort_length {R : Type} (leb : R -> R -> bool) (l : list R) :
  List.length (Pd.stable_sort leb l) = List.length l.
Proof.
  induction l as [|x l IH]; simpl; [reflexivity|].
  now rewrite insert_sorted_length, IH.
Qed.

Lemma sorted_keys_nonempty (l : list (list string)) : l <> [] -> Pd.sorted_keys l <> [].
Proof.
  destruct l as [|k l]; [congruence|]. intros _ H.
  assert (Hin : In k (Pd.sorted_keys (k :: l))) by (apply In_sorted_keys; now left).
  rewrite H in Hin. contradiction.
Qed.

Lemma grouped_length (filtered : list Row) (cols : list string) :
  List.length (grouped filtered cols)
  = List.length (Pd.sorted_keys (map (group_key cols) filtered)).
Proof.
  unfold grouped, Pd.groupby. now rewrite !length_map.
Qed.

Lemma recommend_rows_nonempty (df : list Row) (cat : string) (mp ml md : Q) (pref : string) :
  filtered_df df cat mp ml md pref <> [] ->
  rows (recommend_suppliers df cat mp ml md pref) <> []
  /\ columns (recommend_suppliers df cat mp ml md pref) <> [].
Proof.
  unfold recommend_suppliers.
  destruct (filtered_df df cat mp ml md pref) as [|r f] eqn:E; [congruence|].
  intros _. simpl. split.
  - intros H. apply (f_equal (@List.length _)) in H.
    unfold sort_values in H. rewrite stable_sort_length, grouped_length in H.
    assert (Hne : Pd.sorted_keys (map (group_key (group_cols cat pref)) (r :: f)) <> [])
      by (apply sorted_keys_nonempty; discriminate).
    destruct (Pd.sorted_keys _); [congruence|discriminate].
  - unfold group_cols. discriminate.
Qed.

(** C9: [recommend_suppliers] is a total function, so no call raises.  On
    an empty table it returns the empty frame, and so it does for every
    query that filters out every row; the empty frame is what [.empty]
    recognises, and a query that keeps a row never returns it. *)
Theorem recommend_empty (df : list Row) (cat : string) (mp ml md : Q) (pref : string) :
  recommend_suppliers [] cat mp ml md pref = empty_frame
  /\ ((forall r, In r df -> ~ In r (filtered_df df cat mp ml md pref)) ->
      recommend_suppliers df cat mp ml md pref = empty_frame)
  /\ (empty (recommend_suppliers df cat mp ml md pref) = true
      <-> filtered_df df cat mp ml md pref = []).
Proof.
  split; [|split].
  - unfold recommend_suppliers, filtered_df, filter_thresholds.
    assert (E : filter_compliance pref (filter_category cat []) = []).
    { unfold filter_compliance, filter_category.
      destruct (negb _), (pref =? "Yes")%string, (pref =? "No")%string; reflexivity. }
    now rewrite E.
  - intros Hall. unfold recommend_suppliers.
    destruct (filtered_df df cat mp ml md pref) as [|r f] eqn:E; [reflexivity|].
    exfalso. apply (Hall r).
    + assert (Hin : In r (filtered_df df cat mp ml md pref)) by (rewrite E; now left).
      unfold filtered_df, filter_thresholds, filter_compliance, filter_category in Hin.
      apply filter_In in Hin as [Hin _].
      destruct (negb _), (pref =? "Yes")%string, (pref =? "No")%string;
        repeat (apply filter_In in Hin as [Hin _]); exact Hin.
    + now left.
  - split.
    + intros He. destruct (filtered_df df cat mp ml md pref) as [|r f] eqn:E; [reflexivity|].
      exfalso.
      destruct (recommend_rows_nonempty df cat mp ml md pref) as [Hr Hc];
        [rewrite E; discriminate|].
      unfold empty in He. apply orb_true_iff in He as [He|He]; apply Nat.eqb_eq in He.
      * destruct (rows _); [congruence|discriminate].
      * destruct (columns _); [congruence|discriminate].
    + intros E. unfold recommend_suppliers. rewrite E. reflexivity.
Qed.

(** ** Preprocessing *)

Lemma mapM_Ok {A B : Type} (f : A -> Py.result B) (g : A -> B) (l : list A) :
  (forall x, In x l -> f x = Py.Ok (g x)) -> Py.mapM f l = Py.Ok (map g l).
Proof.
  induction l as [|x l IH]; intros H; simpl; [reflexivity|].
  rewrite (H x (or_introl eq_refl)). simpl.
  rewrite IH by (intros y Hy; apply H; now right). reflexivity.
Qed.

Lemma combine_map {A B C : Type} (f : A -> B) (g : A -> C) (l : list A) :
  combine (map f l) (map g l) = map (fun x => (f x, g x)) l.
Proof. induction l; simpl; congruence. Qed.

Lemma combine_self_map {A B : Type} (f : A -> B) (l : list A) :
  combine l (map f l) = map (fun x => (x, f x)) l.
Proof. induction l; simpl; congruence. Qed.

Lemma defect_rate_Ok (d q : Z) :
  defect_rate d q
  = Py.Ok (if q =? 0 then 0%Q else (inject_Z d / inject_Z q * 100)%Q).
Proof.
  unfold defect_rate, Py.truediv.
  destruct (q =? 0) eqn:E; simpl; [reflexivity|].
  apply Z.eqb_neq in E.
  destruct (Qeq_bool (inject_Z q) 0) eqn:Eq0; [|reflexivity].
  apply Qeq_bool_iff in Eq0. unfold Qeq in Eq0. simpl in Eq0. lia.
Qed.

Lemma key_eqb_single (a b : string) : Pd.key_eqb [a] [b] = (a =? b)%string.
Proof.
  destruct (String.eqb_spec a b) as [->|Hne].
  - apply key_eqb_refl.
  - destruct (Pd.key_eqb [a] [b]) eqn:E; [|reflexivity].
    apply key_eqb_eq in E. congruence.
Qed.

(** The series of line 20, read at a supplier: the mean over the rows of
    the supplier that have a delivery date, absent when there is no such
    row. *)
Lemma lookup_mean_lead_time (raw : list Csv.row) (s : string) :
  Pd.lookup [s] (mean_lead_time raw)
  = match filter (fun r => has_delivery r && (Csv.Supplier r =? s)%string) raw with
    | [] => None
    | refs => Some (Pd.series_mean (map Lead_Time0 refs))
    end.
Proof.
  unfold mean_lead_time.
  rewrite (lookup_map_snd (fun g => Pd.series_mean (map Lead_Time0 g))).
  destruct (filter (fun r => has_delivery r && (Csv.Supplier r =? s)%string) raw)
    as [|r0 refs] eqn:E.
  - rewrite lookup_groupby_None; [reflexivity|].
    intros r Hr Hk. injection Hk as Hk.
    assert (Hin : In r (filter (fun r => has_delivery r && (Csv.Supplier r =? s)%string) raw)).
    { apply filter_In in Hr as [Hr Hd]. apply filter_In. split; [exact Hr|].
      rewrite Hd. simpl. now apply String.eqb_eq. }
    rewrite E in Hin. contradiction.
  - assert (Hin : In r0 (filter (fun r => has_delivery r && (Csv.Supplier r =? s)%string) raw))
      by (rewrite E; now left).
    apply filter_In in Hin as [Hin Hc]. apply andb_true_iff in Hc as [Hd Hs].
    apply String.eqb_eq in Hs.
    assert (Hin' : In r0 (filter has_delivery raw)) by (apply filter_In; auto).
    pose proof (lookup_groupby_Some (fun r => [Csv.Supplier r]) _ _ Hin') as L.
    simpl in L. rewrite Hs in L. rewrite L. simpl.
    rewrite filter_filter_and.
    rewrite (filter_ext _ (fun r => has_delivery r && (Csv.Supplier r =? s)%string)).
    + now rewrite E.
    + intros x. now rewrite key_eqb_single.
Qed.

Lemma dropna_lead_refs (s : string) (raw : list Csv.row) :
  Pd.dropna (map Lead_Time0 (filter (fun r => has_delivery r && (Csv.Supplier r =? s)%string) raw))
  = Pd.dropna (map Lead_Time0 (filter (fun r => (Csv.Supplier r =? s)%string) raw)).
Proof.
  induction raw as [|r raw IH]; simpl; [reflexivity|].
  destruct (Csv.Supplier r =? s)%string; rewrite ?andb_false_r, ?andb_true_r; [|exact IH].
  destruct (has_delivery r) eqn:Hd; simpl.
  - destruct (Lead_Time0 r); now rewrite IH.
  - unfold has_delivery, Lead_Time0, lead_time_days in *.
    destruct (Csv.Delivery_Date r); [discriminate|]. simpl. exact IH.
Qed.

Lemma refs_mean_Some (s : string) (raw : list Csv.row) :
  filter (fun r => has_delivery r && (Csv.Supplier r =? s)%string) raw <> [] ->
  exists m, Pd.series_mean
              (map Lead_Time0
                 (filter (fun r => has_delivery r && (Csv.Supplier r =? s)%string) raw))
            = Some m.
Proof.
  intros Hne. unfold Pd.series_mean.
  destruct (Pd.dropna _) as [|q l] eqn:E; [|simpl; eauto].
  exfalso.
  destruct (filter _ raw) as [|r refs] eqn:F; [congruence|].
  assert (Hin : In r (filter (fun r => has_delivery r && (Csv.Supplier r =? s)%string) raw))
    by (rewrite F; now left).
  apply filter_In in Hin as [_ Hc]. apply andb_true_iff in Hc as [Hd _].
  simpl in E. unfold has_delivery in Hd.
  destruct (Lead_Time0 r) eqn:El; [discriminate|].
  unfold Lead_Time0, lead_time_days in El.
  destruct (Csv.Delivery_Date r); discriminate.
Qed.

(** What line 29 stores for a row, given the series of line 20. *)
Lemma isi_delivery_date_Ok (raw : list Csv.row) (r : Csv.row) :
  isi_delivery_date (mean_lead_time raw) r
  = Py.Ok
      match Csv.Delivery_Date r with
      | Some d => Some d
      | None =>
          match spec_mean_lead_time raw (Csv.Supplier r) with
          | Some m => Some (Csv.Order_Date r + Pd.to_timedelta_D (Py.round m))
          | None => None
          end
      end.
Proof.
  unfold isi_delivery_date. rewrite lookup_mean_lead_time.
  destruct (Csv.Delivery_Date r) as [d|] eqn:Ed.
  - reflexivity.
  - unfold spec_mean_lead_time, Pd.series_mean at 2.
    rewrite <- dropna_lead_refs.
    pose proof (refs_mean_Some (Csv.Supplier r) raw) as Hm.
    match goal with |- context [filter ?f raw] => destruct (filter f raw) as [|r0 refs] end;
      [reflexivity|].
    destruct Hm as [m Hm]; [discriminate|].
    rewrite Hm. unfold Pd.series_mean in Hm. now rewrite Hm.
Qed.

(** Lines 6-40 raise on no table. *)
Lemma preprocess_Ok (raw : list Csv.row) : preprocess raw = Py.Ok (map (prepared raw) raw).
Proof.
  unfold preprocess.
  rewrite (mapM_Ok _ (fun r => value_or None (isi_delivery_date (mean_lead_time raw) r))).
  2:{ intros r _. now rewrite isi_delivery_date_Ok. }
  simpl.
  rewrite (mapM_Ok _ (fun r => value_or 0%Q
             (defect_rate (fillna0 (Csv.Defective_Units r)) (Csv.Quantity r)))).
  2:{ intros r _. now rewrite defect_rate_Ok. }
  simpl. rewrite combine_self_map.
  rewrite (combine_map (fun r => (r, value_or None (isi_delivery_date (mean_lead_time raw) r)))).
  rewrite map_map. reflexivity.
Qed.

Lemma mean_None (l : list Q) : Pd.mean l = None <-> l = [].
Proof. destruct l; simpl; split; congruence. Qed.

Lemma dropna_lead_nil (l : list Csv.row) :
  Pd.dropna (map Lead_Time0 l) = [] <-> forall r, In r l -> Csv.Delivery_Date r = None.
Proof.
  induction l as [|r l IH]; simpl; [intuition|].
  unfold Lead_Time0 at 1, lead_time_days.
  destruct (Csv.Delivery_Date r) as [d|] eqn:E; simpl.
  - split; [discriminate|]. intros H. specialize (H r (or_introl eq_refl)). congruence.
  - rewrite IH. split.
    + intros H x [<-|Hx]; auto.
    + intros H x Hx. apply H. now right.
Qed.

Lemma spec_mean_lead_time_None (raw : list Csv.row) (s : string) :
  spec_mean_lead_time raw s = None <->
  forall r, In r raw -> Csv.Supplier r = s -> Csv.Delivery_Date r = None.
Proof.
  unfold spec_mean_lead_time, Pd.series_mean.
  rewrite mean_None, dropna_lead_nil. split.
  - intros H r Hr Hs. apply H. apply filter_In. split; [exact Hr|]. now apply String.eqb_eq.
  - intros H r Hr. apply filter_In in Hr as [Hr Hs]. apply String.eqb_eq in Hs. auto.
Qed.

Lemma prepared_Delivery_Date (raw : list Csv.row) (r : Csv.row) :
  Delivery_Date (prepared raw r)
  = match Csv.Delivery_Date r with
    | Some d => Some d
    | None =>
        match spec_mean_lead_time raw (Csv.Supplier r) with
        | Some m => Some (Csv.Order_Date r + Pd.to_timedelta_D (Py.round m))
        | None => None
        end
    end.
Proof. unfold prepared. now rewrite isi_delivery_date_Ok. Qed.

Lemma prepared_Lead_Time (raw : list Csv.row) (r : Csv.row) :
  Lead_Time (prepared raw r)
  = lead_time_days (Order_Date (prepared raw r)) (Delivery_Date (prepared raw r)).
Proof. reflexivity. Qed.

Lemma preprocess_nth (raw : list Csv.row) :
  exists df, preprocess raw = Py.Ok df
             /\ List.length df = List.length raw
             /\ (forall i r, nth_error raw i = Some r -> nth_error df i = Some (prepared raw r))
             /\ (forall row, In row df -> exists r, In r raw /\ row = prepared raw r).
Proof.
  exists (map (prepared raw) raw). split; [apply preprocess_Ok|].
  split; [apply length_map|]. split.
  - intros i r H. now apply map_nth_error.
  - intros row H. apply in_map_iff in H as (r & <- & Hr). eauto.
Qed.

(** C3: the preprocessing returns a table, row for row.  A row without a
    delivery date whose supplier has a row with one gets the order date
    plus [round] of the mean of the supplier's lead times before the
    imputation, in days; without such a row the delivery date stays
    missing.  With the reference lead times 3, 5 and 7 and the order date
    2024-01-01 the imputed date is 2024-01-06. *)
Theorem imputation (raw : list Csv.row) :
  exists df,
    preprocess raw = Py.Ok df
    /\ List.length df = List.length raw
    /\ forall i r,
         nth_error raw i = Some r -> Csv.Delivery_Date r = None ->
         exists row,
           nth_error df i = Some row
           /\ ((exists r', In r' raw /\ Csv.Supplier r' = Csv.Supplier r
                           /\ Csv.Delivery_Date r' <> None) ->
               exists m,
                 spec_mean_lead_time raw (Csv.Supplier r) = Some m
                 /\ Delivery_Date row
                    = Some (Csv.Order_Date r + Pd.to_timedelta_D (Py.round m)))
           /\ ((forall r', In r' raw -> Csv.Supplier r' = Csv.Supplier r ->
                           Csv.Delivery_Date r' = None) ->
               Delivery_Date row = None)
           /\ (Pd.dropna (map Lead_Time0
                            (filter (fun r' => (Csv.Supplier r' =? Csv.Supplier r)%string) raw))
               = [3; 5; 7]%Q ->
               Csv.Order_Date r = Pd.to_datetime 2024 1 1 ->
               Delivery_Date row = Some (Pd.to_datetime 2024 1 6)).
Proof.
  destruct (preprocess_nth raw) as (df & Hok & Hlen & Hnth & _).
  exists df. split; [exact Hok|]. split; [exact Hlen|].
  intros i r Hi Hd. exists (prepared raw r). split; [now apply Hnth|].
  rewrite prepared_Delivery_Date, Hd. split; [|split].
  - intros (r' & Hr' & Hs & Hne).
    destruct (spec_mean_lead_time raw (Csv.Supplier r)) as [m|] eqn:E; [eauto|].
    exfalso. apply Hne. now apply (proj1 (spec_mean_lead_time_None raw _) E).
  - intros Hnone. apply spec_mean_lead_time_None in Hnone. now rewrite Hnone.
  - intros Hrefs Ho. unfold spec_mean_lead_time, Pd.series_mean.
    rewrite Hrefs, Ho. reflexivity.
Qed.

(** C8: the preprocessing returns a table, so the division of line 37
    raises on no row.  A row with [Quantity] zero has [Defect_Rate] zero;
    any other row has [Defective_Units / Quantity * 100], the missing
    [Defective_Units] counting as zero. *)
Theorem defect_rate_zero_quantity (raw : list Csv.row) :
  exists df,
    preprocess raw = Py.Ok df
    /\ forall i r,
         nth_error raw i = Some r ->
         exists row,
           nth_error df i = Some row
           /\ Quantity row = Csv.Quantity r
           /\ Defective_Units row = fillna0 (Csv.Defective_Units r)
           /\ defect_rate (Defective_Units row) (Quantity row) = Py.Ok (Defect_Rate row)
           /\ (Quantity row = 0 -> Defect_Rate row = 0%Q)
           /\ (Quantity row <> 0 ->
               Defect_Rate row
               = (inject_Z (Defective_Units row) / inject_Z (Quantity row) * 100)%Q).
Proof.
  destruct (preprocess_nth raw) as (df & Hok & _ & Hnth & _).
  exists df. split; [exact Hok|].
  intros i r Hi. exists (prepared raw r). split; [now apply Hnth|].
  unfold prepared. simpl. rewrite defect_rate_Ok. simpl.
  repeat split.
  - intros ->. reflexivity.
  - intros Hq. apply Z.eqb_neq in Hq. now rewrite Hq.
Qed.

(** ** Rows without a delivery date *)

Lemma filter_comm {A : Type} (f g : A -> bool) (l : list A) :
  filter f (filter g l) = filter g (filter f l).
Proof.
  rewrite !filter_filter_and. apply filter_ext. intros x. apply andb_comm.
Qed.

Lemma filtered_df_of_filter (p : Row -> bool) (df : list Row) (cat : string) (mp ml md : Q)
  (pref : string) :
  filtered_df (filter p df) cat mp ml md pref = filter p (filtered_df df cat mp ml md pref).
Proof.
  unfold filtered_df, filter_thresholds, filter_compliance, filter_category.
  destruct (negb _), (pref =? "Yes")%string, (pref =? "No")%string;
    repeat (rewrite (filter_comm _ p)); reflexivity.
Qed.

Lemma filter_all {A : Type} (p : A -> bool) (l : list A) :
  (forall x, In x l -> p x = true) -> filter p l = l.
Proof.
  induction l as [|x l IH]; intros H; simpl; [reflexivity|].
  rewrite (H x (or_introl eq_refl)), IH; [reflexivity|].
  intros y Hy. apply H. now right.
Qed.

Lemma filtered_df_incl (df : list Row) (cat : string) (mp ml md : Q) (pref : string) (r : Row) :
  In r (filtered_df df cat mp ml md pref) ->
  In r df
  /\ Qle_bool (Negotiated_Price r) mp = true
  /\ le_bound (Lead_Time r) ml = true
  /\ Qle_bool (Defect_Rate r) md = true.
Proof.
  unfold filtered_df, filter_thresholds. intros H.
  apply filter_In in H as [Hin Hk].
  apply andb_true_iff in Hk as [Hk H3]. apply andb_true_iff in Hk as [H1 H2].
  repeat split; auto.
  unfold filter_compliance, filter_category in Hin.
  destruct (negb _), (pref =? "Yes")%string, (pref =? "No")%string;
    repeat (apply filter_In in Hin as [Hin _]); exact Hin.
Qed.

Lemma recommend_depends_on_filtered (df df' : list Row) (cat : string) (mp ml md : Q)
  (pref : string) :
  filtered_df df cat mp ml md pref = filtered_df df' cat mp ml md pref ->
  recommend_suppliers df cat mp ml md pref = recommend_suppliers df' cat mp ml md pref.
Proof. unfold recommend_suppliers. now intros ->. Qed.

(** C7, amended: the preprocessing returns a table.  A row whose delivery
    date is missing and whose supplier has no row with one keeps it
    missing, and its [Lead_Time] is missing.  For a row of the table
    without a delivery date the comparison [Lead_Time <= max_lead_time] is
    false whatever the threshold, and with it the test of lines 54-58
    whatever the three thresholds (the comparisons of the price and of the
    defect rate go by the values of the row); so no query keeps the row,
    and every query returns what it returns on the table without these
    rows. *)
Theorem missing_delivery_excluded (raw : list Csv.row) :
  exists df,
    preprocess raw = Py.Ok df
    /\ (forall i r,
          nth_error raw i = Some r -> Csv.Delivery_Date r = None ->
          (forall r', In r' raw -> Csv.Supplier r' = Csv.Supplier r ->
                      Csv.Delivery_Date r' = None) ->
          exists row,
            nth_error df i = Some row /\ Delivery_Date row = None /\ Lead_Time row = None)
    /\ (forall row,
          In row df -> Delivery_Date row = None ->
          Lead_Time row = None
          /\ forall (cat : string) (mp ml md : Q) (pref : string),
               le_bound (Lead_Time row) ml = false
               /\ Qle_bool (Negotiated_Price row) mp && le_bound (Lead_Time row) ml
                  && Qle_bool (Defect_Rate row) md = false
               /\ ~ In row (filtered_df df cat mp ml md pref))
    /\ (forall (cat : string) (mp ml md : Q) (pref : string),
          recommend_suppliers df cat mp ml md pref
          = recommend_suppliers (filter delivered df) cat mp ml md pref).
Proof.
  destruct (preprocess_nth raw) as (df & Hok & _ & Hnth & Hin).
  assert (Hlead : forall row, In row df -> Delivery_Date row = None -> Lead_Time row = None).
  { intros row Hr Hd. destruct (Hin row Hr) as (r & _ & ->).
    rewrite prepared_Lead_Time, Hd. reflexivity. }
  exists df. split; [exact Hok|]. split; [|split].
  - intros i r Hi Hd Hnone. exists (prepared raw r).
    assert (E : Delivery_Date (prepared raw r) = None).
    { rewrite prepared_Delivery_Date, Hd.
      apply spec_mean_lead_time_None in Hnone. now rewrite Hnone. }
    split; [now apply Hnth|]. split; [exact E|].
    rewrite prepared_Lead_Time, E. reflexivity.
  - intros row Hr Hd. split; [now apply Hlead|].
    intros cat mp ml md pref. rewrite (Hlead row Hr Hd). split; [reflexivity|].
    split; [simpl; now rewrite andb_false_r|].
    intros Hf. apply filtered_df_incl in Hf as (_ & _ & Hl & _).
    rewrite (Hlead row Hr Hd) in Hl. discriminate.
  - intros cat mp ml md pref. apply recommend_depends_on_filtered.
    rewrite filtered_df_of_filter. symmetry. apply filter_all.
    intros row Hf. apply filtered_df_incl in Hf as (Hr & _ & Hl & _).
    unfold delivered. destruct (Delivery_Date row) eqn:Hd; [reflexivity|].
    rewrite (Hlead row Hr Hd) in Hl. discriminate.
Qed.

(** C7 as stated fails: the last row of [contoh_imputasi] has no delivery
    date and no lead time, its supplier having no row with one; it fails
    the comparison of the lead time, but its price and its defect rate are
    known and pass theirs. *)
Lemma missing_delivery_counterexample :
  exists row,
    nth_error contoh_imputasi 4 = Some row
    /\ Delivery_Date row = None
    /\ Lead_Time row = None
    /\ le_bound (Lead_Time row) 10 = false
    /\ Qle_bool (Negotiated_Price row) 200000 = true
    /\ Qle_bool (Defect_Rate row) 5 = true
    /\ ~ In row (filtered_df contoh_imputasi "All" 200000 10 5 "All").
Proof.
  eexists. split; [vm_compute; reflexivity|].
  repeat (split; [reflexivity|]).
  intros H. apply filtered_df_incl in H as (_ & _ & Hl & _). discriminate.
Qed.

(** ** Means of values under a bound *)

Lemma Qsum_le_bound (b : Q) (l : list Q) :
  Forall (fun x => (x <= b)%Q) l ->
  (Pd.Qsum l <= b * inject_Z (Z.of_nat (List.length l)))%Q.
Proof.
  induction 1 as [|x l Hx Hl IH]; simpl.
  - rewrite Qmult_0_r. apply Qle_refl.
  - rewrite Zpos_P_of_succ_nat, <- Z.add_1_r, inject_Z_plus.
    setoid_replace (b * (inject_Z (Z.of_nat (List.length l)) + inject_Z 1))%Q
      with (b + b * inject_Z (Z.of_nat (List.length l)))%Q by ring.
    now apply Qplus_le_compat.
Qed.

Lemma mean_le_bound (b : Q) (l : list Q) :
  l <> [] -> Forall (fun x => (x <= b)%Q) l ->
  exists m, Pd.mean l = Some m /\ (m <= b)%Q.
Proof.
  intros Hne Hall. destruct l as [|x l]; [congruence|].
  eexists. split; [reflexivity|].
  apply Qle_shift_div_r.
  - change 0%Q with (inject_Z 0). rewrite <- Zlt_Qlt. simpl. lia.
  - now apply Qsum_le_bound.
Qed.

Lemma dropna_map_Some {A B : Type} (f : A -> option B) (g : A -> B) (l : list A) :
  (forall x, In x l -> f x = Some (g x)) -> Pd.dropna (map f l) = map g l.
Proof.
  induction l as [|x l IH]; intros H; simpl; [reflexivity|].
  rewrite (H x (or_introl eq_refl)), IH; [reflexivity|].
  intros y Hy. apply H. now right.
Qed.

(** ** The rows of a result *)

Lemma insert_sorted_perm {R : Type} (leb : R -> R -> bool) (x : R) (l : list R) :
  Permutation (Pd.insert_sorted leb x l) (x :: l).
Proof.
  induction l as [|h t IH]; simpl; [reflexivity|].
  destruct (leb x h); [reflexivity|].
  rewrite IH. apply perm_swap.
Qed.

Lemma stable_sort_perm {R : Type} (leb : R -> R -> bool) (l : list R) :
  Permutation (Pd.stable_sort leb l) l.
Proof.
  induction l as [|x l IH]; simpl; [reflexivity|].
  rewrite insert_sorted_perm. now constructor.
Qed.

Lemma rows_of_recommend (df : list Row) (cat : string) (mp ml md : Q) (pref : string)
  (row : Res.row) :
  In row (rows (recommend_suppliers df cat mp ml md pref)) ->
  exists k g,
    In (k, g) (Pd.groupby (group_key (group_cols cat pref))
                 (filtered_df df cat mp ml md pref))
    /\ row = merge (List.length (status_columns (filtered_df df cat mp ml md pref)))
               (crosstab (group_cols cat pref) (filtered_df df cat mp ml md pref))
               (aggregate k g).
Proof.
  unfold recommend_suppliers.
  destruct (filtered_df df cat mp ml md pref) as [|r f] eqn:E; simpl; [contradiction|].
  intros H. unfold sort_values in H.
  apply (Permutation_in _ (stable_sort_perm _ _)) in H.
  unfold grouped in H. rewrite map_map in H.
  apply in_map_iff in H as ([k g] & <- & Hkg). eauto.
Qed.

(** The means of a group of kept rows are numbers (not NaN) within the
    thresholds, and the group counts a row. *)
Lemma aggregate_within_thresholds (df : list Row) (cat : string) (mp ml md : Q)
  (pref : string) (k : list string) (g : list Row) :
  In (k, g) (Pd.groupby (group_key (group_cols cat pref))
               (filtered_df df cat mp ml md pref)) ->
  (exists p, Res.Avg_Negotiated_Price (aggregate k g) = Some p /\ (p <= mp)%Q)
  /\ (exists l, Res.Lead_Time (aggregate k g) = Some l /\ (l <= ml)%Q)
  /\ (exists d, Res.Defect_Rate_pct (aggregate k g) = Some d /\ (d <= md)%Q)
  /\ (1 <= Res.Total_Orders (aggregate k g))%nat.
Proof.
  intros Hkg.
  apply groupby_group_nonempty in Hkg as [Hne Hg]. simpl.
  assert (Hrow : forall x, In x g ->
            (Negotiated_Price x <= mp)%Q
            /\ (exists v, Lead_Time x = Some v /\ (inject_Z v <= ml)%Q)
            /\ (Defect_Rate x <= md)%Q).
  { intros x Hx. destruct (Hg x Hx) as [Hf _].
    apply filtered_df_incl in Hf as (_ & H1 & H2 & H3).
    apply Qle_bool_iff in H1, H3. apply le_bound_true in H2. auto. }
  split; [|split; [|split]].
  - apply mean_le_bound.
    + destruct g; [congruence|discriminate].
    + apply Forall_forall. intros p Hp. apply in_map_iff in Hp as (x & <- & Hx).
      now apply Hrow.
  - unfold Pd.series_mean.
    rewrite (dropna_map_Some _ (fun r => inject_Z (match Lead_Time r with
                                                  | Some v => v | None => 0 end))).
    + apply mean_le_bound.
      * destruct g; [congruence|discriminate].
      * apply Forall_forall. intros p Hp. apply in_map_iff in Hp as (x & <- & Hx).
        destruct (Hrow x Hx) as (_ & (v & -> & Hv) & _). exact Hv.
    + intros x Hx. destruct (Hrow x Hx) as (_ & (v & -> & _) & _). reflexivity.
  - apply mean_le_bound.
    + destruct g; [congruence|discriminate].
    + apply Forall_forall. intros p Hp. apply in_map_iff in Hp as (x & <- & Hx).
      now apply Hrow.
  - destruct g; [congruence|simpl; lia].
Qed.

Lemma result_row_numbers (df : list Row) (cat : string) (mp ml md : Q) (pref : string)
  (row : Res.row) :
  In row (rows (recommend_suppliers df cat mp ml md pref)) ->
  exists d l p,
    (Res.Defect_Rate_pct row = Some d /\ (d <= md)%Q)
    /\ Res.Lead_Time row = Some l
    /\ Res.Avg_Negotiated_Price row = Some p.
Proof.
  intros H. apply rows_of_recommend in H as (k & g & Hkg & ->).
  destruct (aggregate_within_thresholds _ _ _ _ _ _ _ _ Hkg)
    as ((p & Hp & _) & (l & Hl & _) & (d & Hd & Hle) & _).
  exists d, l, p. simpl. auto.
Qed.



(** ** The group key *)

Lemma group_cols_members (cat pref : string) :
  In "Supplier"%string (group_cols cat pref)
  /\ (In "Item_Category"%string (group_cols cat pref) <-> cat = "All"%string)
  /\ (In "Compliance"%string (group_cols cat pref) <-> pref = "All"%string).
Proof.
  unfold group_cols.
  destruct (String.eqb_spec cat "All") as [Hc|Hc], (String.eqb_spec pref "All") as [Hp|Hp];
    simpl; repeat split; auto; intros H;
    repeat (destruct H as [H|H]; try discriminate H); try contradiction; congruence.
Qed.

(** C4: when the query keeps a row, the frame starts with the group
    columns, followed by the six aggregates and the status counts.  The
    group columns always hold [Supplier]; they hold [Item_Category] exactly
    when the category of the query is "All" and [Compliance] exactly when
    the preference is "All".  Every row of the result is keyed by the
    values a kept row has in these columns.  With category "All" and
    preference "Yes" the key is (Supplier, Item_Category); with both "All"
    it is (Supplier, Item_Category, Compliance). *)
Theorem grouping_key (df : list Row) (cat : string) (mp ml md : Q) (pref : string) :
  filtered_df df cat mp ml md pref <> [] ->
  columns (recommend_suppliers df cat mp ml md pref)
  = group_cols cat pref ++ agg_columns ++ status_columns (filtered_df df cat mp ml md pref)
  /\ In "Supplier"%string (group_cols cat pref)
  /\ (In "Item_Category"%string (group_cols cat pref) <-> cat = "All"%string)
  /\ (In "Compliance"%string (group_cols cat pref) <-> pref = "All"%string)
  /\ (forall row,
        In row (rows (recommend_suppliers df cat mp ml md pref)) ->
        exists r, In r (filtered_df df cat mp ml md pref)
                  /\ Res.key row = map (fun c => column c r) (group_cols cat pref))
  /\ (cat = "All"%string -> pref = "Yes"%string ->
      group_cols cat pref = ["Supplier"; "Item_Category"]%string)
  /\ (cat = "All"%string -> pref = "All"%string ->
      group_cols cat pref = ["Supplier"; "Item_Category"; "Compliance"]%string).
Proof.
  intros Hne. split; [|split; [|split; [|split; [|split; [|split]]]]];
    try apply group_cols_members.
  - unfold recommend_suppliers.
    destruct (filtered_df df cat mp ml md pref); [congruence|reflexivity].
  - intros row H. apply rows_of_recommend in H as (k & g & Hkg & ->).
    apply In_groupby in Hkg as (_ & r & Hr & Hk). exists r. simpl. auto.
  - intros -> ->. reflexivity.
  - intros -> ->. reflexivity.
Qed.

(** ** The order of [sort_values] *)

Lemma compare_float_ordering : ordering compare_float.
Proof.
  constructor.
  - intros [x|] [y|]; simpl; auto. symmetry. apply Qcompare_antisym.
  - intros [x|] [y|] [z|]; simpl; try congruence.
    rewrite <- !Qlt_alt. apply Qlt_trans.
  - intros [x|] [y|] [z|]; simpl; try congruence.
    rewrite <- !Qeq_alt. apply Qeq_trans.
  - intros [x|] [y|] [z|]; simpl; try congruence.
    rewrite <- !Qlt_alt, <- Qeq_alt. intros H1 H2. now rewrite <- H2.
  - intros [x|] [y|] [z|]; simpl; try congruence.
    rewrite <- !Qlt_alt, <- Qeq_alt. intros H1 H2. now rewrite H1.
Qed.

Lemma ordering_on {A B : Type} (f : A -> B) (cmp : B -> B -> comparison) :
  ordering cmp -> ordering (fun a b => cmp (f a) (f b)).
Proof.
  intros [H1 H2 H3 H4 H5]. constructor; intros; eauto.
Qed.

Lemma ordering_lex {A : Type} (c1 c2 : A -> A -> comparison) :
  ordering c1 -> ordering c2 ->
  ordering (fun a b => match c1 a b with Eq => c2 a b | c => c end).
Proof.
  intros [A1 L1 E1 LE1 EL1] [A2 L2 E2 LE2 EL2]. constructor.
  - intros a b. rewrite (A1 a b), (A2 a b). now destruct (c1 a b).
  - intros a b c.
    destruct (c1 a b) eqn:Hab; try discriminate;
      destruct (c1 b c) eqn:Hbc; try discriminate; intros Hx Hy.
    + rewrite (E1 _ _ _ Hab Hbc). eauto.
    + now rewrite (EL1 _ _ _ Hab Hbc).
    + now rewrite (LE1 _ _ _ Hab Hbc).
    + now rewrite (L1 _ _ _ Hab Hbc).
  - intros a b c.
    destruct (c1 a b) eqn:Hab; try discriminate;
      destruct (c1 b c) eqn:Hbc; try discriminate; intros Hx Hy.
    rewrite (E1 _ _ _ Hab Hbc). eauto.
  - intros a b c.
    destruct (c1 a b) eqn:Hab; try discriminate;
      destruct (c1 b c) eqn:Hbc; try discriminate; intros Hx Hy.
    + rewrite (E1 _ _ _ Hab Hbc). eauto.
    + now rewrite (LE1 _ _ _ Hab Hbc).
  - intros a b c.
    destruct (c1 a b) eqn:Hab; try discriminate;
      destruct (c1 b c) eqn:Hbc; try discriminate; intros Hx Hy.
    + rewrite (E1 _ _ _ Hab Hbc). eauto.
    + now rewrite (EL1 _ _ _ Hab Hbc).
Qed.

Lemma sort_compare_ordering : ordering sort_compare.
Proof.
  apply (ordering_lex (fun a b => compare_float (Res.Defect_Rate_pct a) (Res.Defect_Rate_pct b))
           (fun a b => match compare_float (Res.Lead_Time a) (Res.Lead_Time b) with
                       | Eq => compare_float (Res.Avg_Negotiated_Price a)
                                 (Res.Avg_Negotiated_Price b)
                       | c => c
                       end)).
  - apply ordering_on, compare_float_ordering.
  - apply (ordering_lex (fun a b => compare_float (Res.Lead_Time a) (Res.Lead_Time b))
             (fun a b => compare_float (Res.Avg_Negotiated_Price a)
                           (Res.Avg_Negotiated_Price b)));
      apply ordering_on, compare_float_ordering.
Qed.

Section StableSort.

Context {R : Type}.
Variable cmp : R -> R -> comparison.
Variable leb : R -> R -> bool.
Variable before : R -> R -> Prop.
Hypothesis cmp_ordering : ordering cmp.
Hypothesis leb_cmp : forall a b, leb a b = match cmp a b with Gt => false | _ => true end.
Hypothesis before_trans : forall a b c, before a b -> before b c -> before a c.

Lemma ranked_trans (a b c : R) :
  ranked cmp before a b -> ranked cmp before b c -> ranked cmp before a c.
Proof.
  destruct cmp_ordering as [_ L E LE EL].
  intros [H1|[H1 B1]] [H2|[H2 B2]]; unfold ranked.
  - left. eauto.
  - left. eauto.
  - left. eauto.
  - right. split; eauto.
Qed.

Lemma insert_sorted_ranked (x : R) (l : list R) :
  StronglySorted (ranked cmp before) l ->
  Forall (before x) l ->
  StronglySorted (ranked cmp before) (Pd.insert_sorted leb x l).
Proof.
  induction 1 as [|h t Hs IH Hh]; intros Hb; simpl.
  - repeat constructor.
  - rewrite leb_cmp. inversion Hb as [|? ? Hxh Hxt]; subst.
    assert (Hst : StronglySorted (ranked cmp before) (h :: t)) by now constructor.
    destruct (cmp x h) eqn:E.
    + constructor; [exact Hst|].
      assert (Hr : ranked cmp before x h) by (right; auto).
      constructor; [exact Hr|].
      eapply Forall_impl; [|exact Hh]. intros y Hy. now apply ranked_trans with h.
    + constructor; [exact Hst|].
      assert (Hr : ranked cmp before x h) by (left; auto).
      constructor; [exact Hr|].
      eapply Forall_impl; [|exact Hh]. intros y Hy. now apply ranked_trans with h.
    + constructor; [now apply IH|].
      apply Forall_forall. intros y Hy.
      apply (Permutation_in _ (insert_sorted_perm leb x t)) in Hy as [<-|Hy].
      * left. rewrite (ord_antisym cmp cmp_ordering x h), E. reflexivity.
      * rewrite Forall_forall in Hh. now apply Hh.
Qed.

Lemma stable_sort_ranked (l : list R) :
  StronglySorted before l ->
  StronglySorted (ranked cmp before) (Pd.stable_sort leb l).
Proof.
  induction 1 as [|x l Hs IH Hx]; simpl; [constructor|].
  apply insert_sorted_ranked; [exact IH|].
  apply Forall_forall. intros y Hy.
  apply (Permutation_in _ (stable_sort_perm leb l)) in Hy.
  rewrite Forall_forall in Hx. now apply Hx.
Qed.

End StableSort.

Lemma StronglySorted_map {A B : Type} (f : A -> B) (P : B -> B -> Prop) (l : list A) :
  StronglySorted P (map f l) -> StronglySorted (fun a b => P (f a) (f b)) l.
Proof.
  induction l as [|x l IH]; simpl; intros H; [constructor|].
  inversion H as [|? ? Hs Hx]; subst. constructor; [now apply IH|].
  apply Forall_forall. intros y Hy. rewrite Forall_forall in Hx.
  apply Hx. now apply in_map.
Qed.

Lemma grouped_keys (filtered : list Row) (cols : list string) :
  map Res.key (grouped filtered cols) = Pd.sorted_keys (map (group_key cols) filtered).
Proof.
  unfold grouped. rewrite !map_map. simpl.
  rewrite <- groupby_keys. reflexivity.
Qed.

Lemma grouped_key_order (filtered : list Row) (cols : list string) :
  StronglySorted key_before (grouped filtered cols).
Proof.
  apply (StronglySorted_map Res.key key_lt).
  rewrite grouped_keys. apply sorted_keys_sorted.
Qed.

Lemma StronglySorted_impl_In {A : Type} (P P' : A -> A -> Prop) (l : list A) :
  (forall a b, In a l -> In b l -> P a b -> P' a b) ->
  StronglySorted P l -> StronglySorted P' l.
Proof.
  intros Himp Hs. induction Hs as [|x l Hs IH Hx]; [constructor|].
  constructor.
  - apply IH. intros a b Ha Hb. apply Himp; now right.
  - apply Forall_forall. intros y Hy. rewrite Forall_forall in Hx.
    apply Himp; [now left|now right|now apply Hx].
Qed.

Lemma ranked_spec_before (a b : Res.row) (da la pa db lb pb : Q) :
  Res.Defect_Rate_pct a = Some da -> Res.Lead_Time a = Some la ->
  Res.Avg_Negotiated_Price a = Some pa ->
  Res.Defect_Rate_pct b = Some db -> Res.Lead_Time b = Some lb ->
  Res.Avg_Negotiated_Price b = Some pb ->
  ranked sort_compare key_before a b -> spec_before a b.
Proof.
  intros Hda Hla Hpa Hdb Hlb Hpb Hr.
  exists da, la, pa, db, lb, pb. repeat (split; [assumption|]).
  unfold ranked, sort_compare, key_before in Hr.
  rewrite Hda, Hla, Hpa, Hdb, Hlb, Hpb in Hr. simpl in Hr.
  destruct (Qcompare_spec da db) as [Ed|Ed|Ed].
  - right. split; [exact Ed|].
    destruct (Qcompare_spec la lb) as [El|El|El].
    + right. split; [exact El|].
      destruct (Qcompare_spec pa pb) as [Ep|Ep|Ep].
      * right. split; [exact Ep|]. destruct Hr as [Hr|[_ Hr]]; [discriminate|exact Hr].
      * now left.
      * destruct Hr as [Hr|[Hr _]]; discriminate.
    + now left.
    + destruct Hr as [Hr|[Hr _]]; discriminate.
  - now left.
  - destruct Hr as [Hr|[Hr _]]; discriminate.
Qed.

Lemma holds_compare (x y : option Q) (p q : Q) :
  holds x p -> holds y q -> compare_float x y = (p ?= q)%Q.
Proof.
  intros (v & -> & Hv) (w & -> & Hw). simpl. now rewrite Hv, Hw.
Qed.

(** C2: the rows of a result are the rows of the aggregation, one per
    group, rearranged; they stand in ascending order of [Defect_Rate (%)],
    then [Lead_Time], then [Avg_Negotiated_Price], and rows that tie on all
    three stand in the order of their group keys.  Three groups with the
    defect rates 5, 2, 2 and the lead times 3, 1, 4 come out as the second,
    the third, the first. *)
Theorem result_sorted (df : list Row) (cat : string) (mp ml md : Q) (pref : string) :
  Permutation (rows (recommend_suppliers df cat mp ml md pref))
    (grouped (filtered_df df cat mp ml md pref) (group_cols cat pref))
  /\ StronglySorted key_before
       (grouped (filtered_df df cat mp ml md pref) (group_cols cat pref))
  /\ StronglySorted spec_before (rows (recommend_suppliers df cat mp ml md pref))
  /\ (forall a b c : Res.row,
        holds (Res.Defect_Rate_pct a) 5 -> holds (Res.Lead_Time a) 3 ->
        holds (Res.Defect_Rate_pct b) 2 -> holds (Res.Lead_Time b) 1 ->
        holds (Res.Defect_Rate_pct c) 2 -> holds (Res.Lead_Time c) 4 ->
        sort_values [a; b; c] = [b; c; a])
  /\ map ringkas (rows (recommend_suppliers contoh_urut "All" 200000 10 5 "All"))
     = [ (["Beta"; "Office"; "Yes"]%string, Some 2%Q, Some 1%Q, Some 160000%Q);
         (["Gamma"; "Office"; "No"]%string, Some 2%Q, Some 4%Q, Some 160000%Q);
         (["Alpha"; "Office"; "Yes"]%string, Some 5%Q, Some 3%Q, Some 160000%Q) ].
Proof.
  assert (Hrows : rows (recommend_suppliers df cat mp ml md pref)
                  = sort_values (grouped (filtered_df df cat mp ml md pref)
                                   (group_cols cat pref))).
  { unfold recommend_suppliers.
    destruct (filtered_df df cat mp ml md pref); reflexivity. }
  split; [|split; [|split; [|split]]].
  - rewrite Hrows. apply stable_sort_perm.
  - apply grouped_key_order.
  - apply (StronglySorted_impl_In (ranked sort_compare key_before)).
    + intros a b Ha Hb.
      destruct (result_row_numbers _ _ _ _ _ _ a Ha) as (da & la & pa & [Hda _] & Hla & Hpa).
      destruct (result_row_numbers _ _ _ _ _ _ b Hb) as (db & lb & pb & [Hdb _] & Hlb & Hpb).
      now apply ranked_spec_before with da la pa db lb pb.
    + rewrite Hrows. unfold sort_values.
      apply stable_sort_ranked.
      * apply sort_compare_ordering.
      * reflexivity.
      * intros x y z. unfold key_before, key_lt. apply compare_key_trans.
      * apply grouped_key_order.
  - intros a b c Da La Db Lb Dc Lc.
    unfold sort_values, Pd.stable_sort. simpl. unfold sort_leb, sort_compare.
    rewrite (holds_compare _ _ _ _ Db Dc), (holds_compare _ _ _ _ Lb Lc). simpl.
    rewrite (holds_compare _ _ _ _ Da Db). simpl.
    rewrite (holds_compare _ _ _ _ Da Dc). simpl. reflexivity.
  - vm_compute. reflexivity.
Qed.

(** ** The note on an alternative *)

Lemma round_comp (p q : Q) : (p == q)%Q -> Py.round p = Py.round q.
Proof.
  intros H. unfold Py.round.
  rewrite (Qfloor_comp _ _ H).
  assert (E : ((p - inject_Z (Qfloor q) ?= 1 # 2) = (q - inject_Z (Qfloor q) ?= 1 # 2))%Q)
    by now rewrite H.
  now rewrite E.
Qed.

Lemma format_1f_comp (p q : Q) : (p == q)%Q -> Py.format_1f p = Py.format_1f q.
Proof.
  intros H. unfold Py.format_1f.
  assert (E1 : Qle_bool 0 p = Qle_bool 0 q) by now rewrite H.
  assert (E2 : Py.round (Qabs p * 10) = Py.round (Qabs q * 10))
    by (apply round_comp; now rewrite H).
  now rewrite E1, E2.
Qed.

Lemma substring_append (s t : string) : substring 0 (String.length s) (s ++ t) = s.
Proof. induction s as [|c s IH]; simpl; [now destruct t|now rewrite IH]. Qed.

Lemma contains_prefix (s t : string) : Py.contains s (s ++ t) = true.
Proof.
  unfold Py.contains.
  assert (Hp : prefix s (s ++ t) = true) by (apply prefix_correct, substring_append).
  destruct (s ++ t)%string as [|c u] eqn:E.
  - destruct s; [reflexivity|discriminate].
  - simpl. simpl in Hp. now rewrite Hp.
Qed.

Lemma join_head (x : string) (l : list string) :
  exists t, Py.join ", " (x :: l) = (x ++ t)%string.
Proof.
  destruct l as [|y l]; simpl.
  - exists ""%string. induction x; simpl; congruence.
  - eexists. reflexivity.
Qed.

Lemma alasan_defect_cases (md : Q) (row : Res.row) (d : Q) :
  Res.Defect_Rate_pct row = Some d ->
  ((Qabs (d - md) <= 2)%Q -> alasan_defect md row = [catatan_mendekati d])
  /\ (~ (Qabs (d - md) <= 2)%Q -> (md < d)%Q -> alasan_defect md row = [catatan_melebihi d])
  /\ (~ (Qabs (d - md) <= 2)%Q -> (d <= md)%Q -> alasan_defect md row = []).
Proof.
  intros Hd. unfold alasan_defect, Py.abs, Qgt_bool. rewrite Hd.
  destruct (Qle_bool (Qabs (d - md)) 2) eqn:E.
  - apply Qle_bool_iff in E.
    split; [reflexivity|]. split; intros Hn; contradiction.
  - assert (Hn : ~ (Qabs (d - md) <= 2)%Q) by (rewrite <- Qle_bool_iff; congruence).
    split; [intros Hy; contradiction|]. split.
    + intros _ Hlt. destruct (Qle_bool d md) eqn:E2; [|reflexivity].
      apply Qle_bool_iff in E2. exfalso. now apply (Qlt_not_le md d).
    + intros _ Hle. apply Qle_bool_iff in Hle. now rewrite Hle.
Qed.

Lemma near_threshold (d md : Q) :
  (md < d)%Q -> (d <= md + 2)%Q -> (Qabs (d - md) <= 2)%Q.
Proof.
  intros H1 H2. rewrite Qabs_pos.
  - apply Qplus_le_l with md. now ring_simplify.
  - apply Qplus_le_l with md. ring_simplify. now apply Qlt_le_weak.
Qed.

(** C1, amended: given the defect rate [d] of a row, [alasan] tests the
    nearness [|d - max_defect_rate| <= 2] first, and the note is then
    "Defect Rate mendekati batas (d%)"; the note "Defect Rate d%" is given
    only to a row that is not near and lies above the threshold.  So with
    [max_defect_rate = 5] a row at 6.5 gets a note that holds "Defect Rate
    mendekati batas (6.5%)", and a row at 5.5 one that holds "Defect Rate
    mendekati batas (5.5%)".  A row of the alternatives has a defect rate
    of at most [max_defect_rate + 2], so above the threshold it always gets
    the first note. *)
Theorem alasan_defect_note (float_str : Q -> string) (mp ml md : Q) (row : Res.row) (d : Q) :
  Res.Defect_Rate_pct row = Some d ->
  ((Qabs (d - md) <= 2)%Q -> alasan_defect md row = [catatan_mendekati d])
  /\ (~ (Qabs (d - md) <= 2)%Q -> (md < d)%Q -> alasan_defect md row = [catatan_melebihi d])
  /\ (~ (Qabs (d - md) <= 2)%Q -> (d <= md)%Q -> alasan_defect md row = [])
  /\ ((md == 5)%Q -> (d == 13 # 2)%Q ->
      Py.contains "Defect Rate mendekati batas (6.5%)" (alasan float_str mp ml md row) = true)
  /\ ((md == 5)%Q -> (d == 11 # 2)%Q ->
      Py.contains "Defect Rate mendekati batas (5.5%)" (alasan float_str mp ml md row) = true)
  /\ (forall (df : list Row) (cat pref : string),
        In row (rows (recommend_suppliers df cat (toleransi_price mp) (toleransi_lead ml)
                        (toleransi_defect md) pref)) ->
        (md < d)%Q -> alasan_defect md row = [catatan_mendekati d]).
Proof.
  intros Hd.
  destruct (alasan_defect_cases md row d Hd) as (Hnear & Hover & Hnone).
  assert (Hnote : forall q : Q, (Qabs (q - 5) <= 2)%Q -> (md == 5)%Q -> (d == q)%Q ->
            Py.contains (catatan_mendekati q) (alasan float_str mp ml md row) = true).
  { intros q Hq Hmd Hdq. unfold alasan.
    rewrite Hnear by (now rewrite Hmd, Hdq). simpl app.
    destruct (join_head (catatan_mendekati d) (alasan_price mp row ++ alasan_lead float_str ml row))
      as [t ->].
    unfold catatan_mendekati. rewrite (format_1f_comp d q Hdq). apply contains_prefix. }
  split; [exact Hnear|]. split; [exact Hover|]. split; [exact Hnone|].
  split; [|split].
  - intros Hmd Hdq. apply (Hnote (13 # 2)%Q); [discriminate|assumption|assumption].
  - intros Hmd Hdq. apply (Hnote (11 # 2)%Q); [discriminate|assumption|assumption].
  - intros df cat pref Hin Hlt.
    apply result_row_numbers in Hin as (d' & _ & _ & [Hd' Hle] & _).
    rewrite Hd in Hd'. injection Hd' as <-.
    apply Hnear. now apply near_threshold.
Qed.

(** With the thresholds 200000, 10 and 5 no row of [contoh_alternatif] is
    kept; relaxed, both are, the lower defect rate first. *)
Example alternatif_rows :
  recommend_suppliers contoh_alternatif "All" 200000 10 5 "All" = empty_frame
  /\ rows (recommend_suppliers contoh_alternatif "All" (toleransi_price 200000)
             (toleransi_lead 10) (toleransi_defect 5) "All")
     = [baris_epsilon; baris_delta].
Proof. split; vm_compute; reflexivity. Qed.

(** C1 as stated fails: the query with [max_defect_rate = 5] has no
    answer on [contoh_alternatif]; the alternatives hold a row with the
    defect rate 6.5, and its note is "Defect Rate mendekati batas (6.5%)",
    which does not hold "Defect Rate 6.5%", in any letter case. *)
Lemma alasan_exceeds_counterexample :
  recommend_suppliers contoh_alternatif "All" 200000 10 5 "All" = empty_frame
  /\ In baris_delta
       (rows (recommend_suppliers contoh_alternatif "All" (toleransi_price 200000)
                (toleransi_lead 10) (toleransi_defect 5) "All"))
  /\ holds (Res.Defect_Rate_pct baris_delta) (13 # 2)
  /\ forall float_str : Q -> string,
       alasan float_str 200000 10 5 baris_delta = "Defect Rate mendekati batas (6.5%)"%string
       /\ Py.contains "Defect Rate 6.5%" (alasan float_str 200000 10 5 baris_delta) = false
       /\ Py.contains "defect rate 6.5%"
            (Py.lower (alasan float_str 200000 10 5 baris_delta)) = false.
Proof.
  split; [vm_compute; reflexivity|].
  split; [vm_compute; right; left; reflexivity|].
  split; [exists (1300 # 200)%Q; split; reflexivity|].
  intros float_str.
  assert (E : alasan float_str 200000 10 5 baris_delta
              = "Defect Rate mendekati batas (6.5%)"%string) by reflexivity.
  rewrite E. repeat split; reflexivity.
Qed.

Lemma alasan_defect_note_witness :
  Res.Defect_Rate_pct baris_delta = Some (1300 # 200)%Q
  /\ alasan_defect 5 baris_delta = [catatan_mendekati (1300 # 200)]
  /\ Py.contains "Defect Rate mendekati batas (6.5%)"
       (alasan Py.format_1f 200000 10 5 baris_delta) = true.
Proof.
  split; [reflexivity|].
  pose proof (alasan_defect_note Py.format_1f 200000 10 5 baris_delta (1300 # 200)%Q eq_refl)
    as (Hnear & _ & _ & H65 & _).
  split.
  - apply Hnear. vm_compute. discriminate.
  - apply H65; reflexivity.
Defined.

Lemma grouping_key_witness :
  filtered_df contoh_urut "All" 200000 10 5 "Yes" <> []
  /\ columns (recommend_suppliers contoh_urut "All" 200000 10 5 "Yes")
     = ["Supplier"; "Item_Category"; "Avg_Negotiated_Price"; "Lead_Time"; "Defect_Rate (%)";
        "Price_Efficiency (%)"; "Total_Quantity"; "Total_Orders"; "Closed"; "Open"]%string.
Proof.
  assert (Hne : filtered_df contoh_urut "All" 200000 10 5 "Yes" <> [])
    by (vm_compute; discriminate).
  split; [exact Hne|].
  destruct (grouping_key contoh_urut "All" 200000 10 5 "Yes" Hne) as (Hcols & _).
  rewrite Hcols. vm_compute. reflexivity.
Defined.

Lemma filtered_df_keeps_witness :
  In "Yes"%string compliance_choices
  /\ Py.is_ascii "OFFICE" = true
  /\ forallb (fun r => Py.is_ascii (Item_Category r)) contoh_urut = true
  /\ filtered_df contoh_urut "OFFICE" 200000 10 5 "Yes"
     = filter (spec_keeps "OFFICE" 200000 10 5 "Yes") contoh_urut
  /\ map PO_ID (filter (spec_keeps "OFFICE" 200000 10 5 "Yes") contoh_urut)
     = ["PO-1"; "PO-2"]%string.
Proof.
  assert (Hin : In "Yes"%string compliance_choices) by (right; left; reflexivity).
  assert (Hc : Py.is_ascii "OFFICE" = true) by reflexivity.
  assert (Hdf : forallb (fun r => Py.is_ascii (Item_Category r)) contoh_urut = true)
    by (vm_compute; reflexivity).
  repeat (split; [assumption|]).
  split; [|vm_compute; reflexivity].
  exact (proj1 (filtered_df_keeps contoh_urut "OFFICE" 200000 10 5 "Yes" Hin Hc Hdf)).
Defined.

Lemma filter_monotone_witness :
  (200000 <= 200000)%Q /\ (10 <= 10)%Q /\ (2 <= 5)%Q
  /\ (List.length (filtered_df contoh_urut "All" 200000 10 2 "All")
      <= List.length (filtered_df contoh_urut "All" 200000 10 5 "All"))%nat.
Proof.
  assert (H1 : (200000 <= 200000)%Q) by discriminate.
  assert (H2 : (10 <= 10)%Q) by discriminate.
  assert (H3 : (2 <= 5)%Q) by discriminate.
  repeat (split; [assumption|]).
  exact (proj1 (filter_monotone contoh_urut "All" "All" 200000 10 2 200000 10 5 H1 H2 H3)).
Defined.


(** ** The builtins and the sample tables, evaluated *)

Example round_ties :
  map Py.round [(1 # 2); (3 # 2); (5 # 2); (-1 # 2); (7 # 3); 5]%Q = [0; 2; 2; 0; 2; 5].
Proof. reflexivity. Qed.

Example format_1f_ex :
  map Py.format_1f [(13 # 2); (11 # 2); 0; (1 # 4); (-1 # 25); (1999 # 100)]%Q
  = ["6.5"; "5.5"; "0.0"; "0.2"; "-0.0"; "20.0"]%string.
Proof. vm_compute. reflexivity. Qed.

Example format_comma_ex :
  map Py.format_comma [0; 999; 1000; 200000; 1234567; -1234]
  = ["0"; "999"; "1,000"; "200,000"; "1,234,567"; "-1,234"]%string.
Proof. vm_compute. reflexivity. Qed.

Example days_from_civil_ex :
  map (fun d => Pd.days_from_civil (fst (fst d)) (snd (fst d)) (snd d))
    [(1970, 1, 1); (2024, 1, 1); (2024, 1, 6); (2024, 3, 1); (1600, 3, 1)]
  = [0; 19723; 19728; 19783; -135080].
Proof. reflexivity. Qed.

(** The imputation on [contoh_imputasi_csv]: the fourth row gets
    2024-01-06, the fifth stays without a date and without a lead time. *)
Example imputation_example :
  map (fun r => (Delivery_Date r, Lead_Time r)) contoh_imputasi
  = [ (Some (Pd.to_datetime 2023 12 4), Some 3);
      (Some (Pd.to_datetime 2023 12 6), Some 5);
      (Some (Pd.to_datetime 2023 12 8), Some 7);
      (Some (Pd.to_datetime 2024 1 6), Some 5);
      (None, None) ]
  /\ map (fun r => Qred (Defect_Rate r)) contoh_imputasi = [2; 0; 0; 2; 2]%Q.
Proof. split; vm_compute; reflexivity. Qed.

(** The filter on [contoh_urut]: the category matches whatever its case,
    and the first row, which sits on all three thresholds, is kept. *)
Example filter_example :
  map PO_ID (filtered_df contoh_urut "OFFICE" 160000 3 5 "Yes") = ["PO-1"; "PO-2"]%string
  /\ map PO_ID (filtered_df contoh_urut "All" 160000 3 5 "No") = []
  /\ map PO_ID (filtered_df contoh_urut "All" 160000 4 5 "All")
     = ["PO-1"; "PO-2"; "PO-3"]%string.
Proof. repeat split; vm_compute; reflexivity. Qed.

(** A search without an answer shows the alternatives with their notes. *)
Example cari_supplier_example :
  cari_supplier Py.format_1f contoh_alternatif "All" 200000 10 5 "All"
  = Alternatif [ (baris_epsilon, "Defect Rate mendekati batas (5.5%)"%string);
                 (baris_delta, "Defect Rate mendekati batas (6.5%)"%string) ].
Proof. vm_compute. reflexivity. Qed.

(* ================================================================== *)
(** * Further properties *)

(** ** Sums over the groups of a table *)

Lemma Zsum_app (l l' : list Z) : Zsum (l ++ l') = Zsum l + Zsum l'.
Proof. induction l as [|x l IH]; simpl; [reflexivity|rewrite IH; lia]. Qed.

Lemma Zsum_perm (l l' : list Z) : Permutation l l' -> Zsum l = Zsum l'.
Proof. induction 1; simpl; lia. Qed.

Lemma Zsum_map_add {K : Type} (f h : K -> Z) (ks : list K) :
  Zsum (map (fun k => f k + h k) ks) = Zsum (map f ks) + Zsum (map h ks).
Proof. induction ks as [|k ks IH]; simpl; [reflexivity|rewrite IH; lia]. Qed.

Lemma Zsum_ones {A : Type} (l : list A) : Zsum (map (fun _ => 1) l) = Z.of_nat (List.length l).
Proof.
  unfold Zsum. induction l as [|x l IH]; [reflexivity|].
  cbn [map fold_right List.length]. rewrite IH. lia.
Qed.

Section Partition.

Context {K R : Type}.
Variable eqb : K -> K -> bool.
Hypothesis eqb_eq : forall a b, eqb a b = true <-> a = b.
Variable key : R -> K.
Variable g : R -> Z.

Lemma Zsum_indicator (kx : K) (a : Z) (ks : list K) :
  NoDup ks -> In kx ks ->
  Zsum (map (fun k => if eqb kx k then a else 0) ks) = a.
Proof.
  induction 1 as [|k ks Hk Hnd IH]; intros Hin; [contradiction|]. simpl.
  destruct (eqb kx k) eqn:E.
  - apply eqb_eq in E. subst k.
    assert (Z0 : Zsum (map (fun k => if eqb kx k then a else 0) ks) = 0).
    { clear IH Hin Hnd. induction ks as [|k ks IH]; simpl; [reflexivity|].
      destruct (eqb kx k) eqn:E.
      - apply eqb_eq in E. subst k. exfalso. apply Hk. now left.
      - rewrite IH; [reflexivity|]. intros H. apply Hk. now right. }
    rewrite Z0. lia.
  - destruct Hin as [->|Hin].
    + assert (T : eqb kx kx = true) by now apply eqb_eq. congruence.
    + now rewrite IH.
Qed.

(** The groups of a table share out its rows: a sum taken group by group
    is the sum over the table. *)
Lemma Zsum_groups (ks : list K) (l : list R) :
  NoDup ks -> (forall x, In x l -> In (key x) ks) ->
  Zsum (map (fun k => Zsum (map g (filter (fun x => eqb (key x) k) l))) ks)
  = Zsum (map g l).
Proof.
  intros Hnd. induction l as [|x l IH]; intros Hin.
  - simpl. induction ks; simpl; auto. inversion Hnd; subst. now rewrite IHks.
  - rewrite (map_ext _ (fun k => (if eqb (key x) k then g x else 0)
                                 + Zsum (map g (filter (fun y => eqb (key y) k) l)))).
    + rewrite Zsum_map_add, Zsum_indicator; [|exact Hnd|apply Hin; now left].
      rewrite IH; [reflexivity|]. intros y Hy. apply Hin. now right.
    + intros k. simpl. destruct (eqb (key x) k); simpl; lia.
Qed.

End Partition.

Lemma key_lt_irrefl (k : list string) : ~ key_lt k k.
Proof. unfold key_lt. rewrite compare_key_refl. discriminate. Qed.

Lemma sorted_keys_NoDup (l : list (list string)) : NoDup (Pd.sorted_keys l).
Proof.
  pose proof (sorted_keys_sorted l) as Hs.
  induction Hs as [|k ks Hs IH Hk]; constructor; [|exact IH].
  intros Hin. rewrite Forall_forall in Hk. now apply (key_lt_irrefl k), Hk.
Qed.

Lemma insert_key_length (k : list string) (l : list (list string)) :
  (List.length (Pd.insert_key k l) <= S (List.length l))%nat.
Proof.
  induction l as [|h t IH]; simpl; [lia|].
  destruct (Pd.compare_key k h); simpl; lia.
Qed.

Lemma sorted_keys_length (l : list (list string)) :
  (List.length (Pd.sorted_keys l) <= List.length l)%nat.
Proof.
  induction l as [|k l IH]; simpl; [lia|].
  pose proof (insert_key_length k (Pd.sorted_keys l)). lia.
Qed.

Lemma rows_perm_grouped (df : list Row) (cat : string) (mp ml md : Q) (pref : string) :
  Permutation (rows (recommend_suppliers df cat mp ml md pref))
    (grouped (filtered_df df cat mp ml md pref) (group_cols cat pref)).
Proof.
  unfold recommend_suppliers.
  destruct (filtered_df df cat mp ml md pref) eqn:E; simpl.
  - reflexivity.
  - apply stable_sort_perm.
Qed.

Lemma grouped_map {B : Type} (f : Res.row -> B) (F : list string -> list Row -> B)
  (filtered : list Row) (cols : list string) :
  (forall k g n c, f (merge n c (aggregate k g)) = F k g) ->
  map f (grouped filtered cols)
  = map (fun k => F k (filter (fun r => Pd.key_eqb (group_key cols r) k) filtered))
      (Pd.sorted_keys (map (group_key cols) filtered)).
Proof.
  intros H. unfold grouped, Pd.groupby. rewrite !map_map.
  apply map_ext. intros k. apply H.
Qed.

Lemma int64_mod (z : Z) : Pd.int64 z mod 2 ^ 64 = z mod 2 ^ 64.
Proof.
  unfold Pd.int64.
  rewrite Zminus_mod, Zmod_mod, <- Zminus_mod.
  f_equal. lia.
Qed.

Lemma int64_small (z : Z) : - 2 ^ 63 <= z < 2 ^ 63 -> Pd.int64 z = z.
Proof.
  intros H. unfold Pd.int64. rewrite Z.mod_small; lia.
Qed.

Lemma Zsum_map_int64 {K : Type} (f : K -> Z) (ks : list K) :
  Zsum (map (fun k => Pd.int64 (f k)) ks) mod 2 ^ 64 = Zsum (map f ks) mod 2 ^ 64.
Proof.
  induction ks as [|k ks IH]; [reflexivity|].
  cbn [map Zsum fold_right]. fold (Zsum (map (fun k => Pd.int64 (f k)) ks)).
  fold (Zsum (map f ks)).
  rewrite Z.add_mod, int64_mod, IH, <- Z.add_mod by discriminate. reflexivity.
Qed.

Lemma Zsum_filter_bounds {R : Type} (g : R -> Z) (p : R -> bool) (l : list R) :
  (forall x, In x l -> 0 <= g x) ->
  0 <= Zsum (map g (filter p l)) <= Zsum (map g l).
Proof.
  induction l as [|x l IH]; intros H; [simpl; lia|].
  assert (Hx := H x (or_introl eq_refl)).
  assert (IH' := IH (fun y Hy => H y (or_intror Hy))).
  cbn [filter map Zsum fold_right]. fold (Zsum (map g l)).
  destruct (p x); cbn [map Zsum fold_right]; fold (Zsum (map g (filter p l))); lia.
Qed.

(** X1: the groups share out the kept rows.  Over the rows of a result the
    counts [Total_Orders] add up to the number of rows the filter keeps.
    The sums [Total_Quantity] are int64 and wrap around: they add up to the
    sum of the kept quantities modulo 2^64, and to that sum itself when no
    kept quantity is negative and the sum is below 2^63. *)
Theorem totals_conserved (df : list Row) (cat : string) (mp ml md : Q) (pref : string) :
  Zsum (map (fun row => Z.of_nat (Res.Total_Orders row))
          (rows (recommend_suppliers df cat mp ml md pref)))
  = Z.of_nat (List.length (filtered_df df cat mp ml md pref))
  /\ Zsum (map Res.Total_Quantity (rows (recommend_suppliers df cat mp ml md pref)))
       mod 2 ^ 64
     = Zsum (map Quantity (filtered_df df cat mp ml md pref)) mod 2 ^ 64
  /\ ((forall r, In r (filtered_df df cat mp ml md pref) -> 0 <= Quantity r) ->
      Zsum (map Quantity (filtered_df df cat mp ml md pref)) < 2 ^ 63 ->
      Zsum (map Res.Total_Quantity (rows (recommend_suppliers df cat mp ml md pref)))
      = Zsum (map Quantity (filtered_df df cat mp ml md pref))).
Proof.
  pose proof (rows_perm_grouped df cat mp ml md pref) as Hp.
  set (filtered := filtered_df df cat mp ml md pref) in *.
  set (cols := group_cols cat pref) in *.
  assert (Hin : forall x, In x filtered ->
                  In (group_key cols x) (Pd.sorted_keys (map (group_key cols) filtered))).
  { intros x Hx. apply In_sorted_keys. now apply in_map. }
  assert (Hq : Zsum (map (fun k => Zsum (map Quantity
                                          (filter (fun r => Pd.key_eqb (group_key cols r) k)
                                             filtered)))
                       (Pd.sorted_keys (map (group_key cols) filtered)))
               = Zsum (map Quantity filtered)).
  { apply (Zsum_groups Pd.key_eqb key_eqb_eq (group_key cols) Quantity);
      [apply sorted_keys_NoDup|exact Hin]. }
  assert (Hrows : Zsum (map Res.Total_Quantity (rows (recommend_suppliers df cat mp ml md pref)))
                  = Zsum (map (fun k => Pd.int64
                                          (Zsum (map Quantity
                                                   (filter (fun r => Pd.key_eqb (group_key cols r) k)
                                                      filtered))))
                            (Pd.sorted_keys (map (group_key cols) filtered)))).
  { rewrite (Zsum_perm _ _ (Permutation_map _ Hp)).
    now rewrite (grouped_map _ (fun _ g => Pd.int64 (Zsum (map Quantity g)))) by reflexivity. }
  split; [|split].
  - rewrite (Zsum_perm _ _ (Permutation_map _ Hp)).
    rewrite (grouped_map _ (fun _ g => Z.of_nat (List.length g))) by reflexivity.
    rewrite <- Zsum_ones.
    rewrite <- (Zsum_groups Pd.key_eqb key_eqb_eq (group_key cols) (fun _ => 1)
                  (Pd.sorted_keys (map (group_key cols) filtered)) filtered
                  (sorted_keys_NoDup _) Hin).
    f_equal. apply map_ext. intros k. now rewrite Zsum_ones.
  - rewrite Hrows, Zsum_map_int64, Hq. reflexivity.
  - intros Hpos Hlt. rewrite Hrows, <- Hq. f_equal.
    apply map_ext. intros k. apply int64_small.
    pose proof (Zsum_filter_bounds Quantity (fun r => Pd.key_eqb (group_key cols r) k)
                  filtered Hpos) as Hb.
    lia.
Qed.

Lemma result_keys_perm (df : list Row) (cat : string) (mp ml md : Q) (pref : string) :
  Permutation (map Res.key (rows (recommend_suppliers df cat mp ml md pref)))
    (Pd.sorted_keys (map (group_key (group_cols cat pref))
                       (filtered_df df cat mp ml md pref))).
Proof.
  rewrite <- grouped_keys. apply Permutation_map, rows_perm_grouped.
Qed.

Lemma result_keys_In (df : list Row) (cat : string) (mp ml md : Q) (pref : string)
  (k : list string) :
  In k (map Res.key (rows (recommend_suppliers df cat mp ml md pref)))
  <-> exists r, In r (filtered_df df cat mp ml md pref)
                /\ group_key (group_cols cat pref) r = k.
Proof.
  pose proof (result_keys_perm df cat mp ml md pref) as Hk. split.
  - intros H. apply (Permutation_in _ Hk), In_sorted_keys, in_map_iff in H
      as (r & Hr & Hin). eauto.
  - intros (r & Hin & Hr). apply (Permutation_in _ (Permutation_sym Hk)).
    apply In_sorted_keys. rewrite <- Hr. now apply in_map.
Qed.

(** X2: a result has one row for every distinct group key of the kept
    rows: the keys of its rows are pairwise distinct, a key occurs exactly
    when a kept row has it, and there are no more rows than kept rows. *)
Theorem one_row_per_key (df : list Row) (cat : string) (mp ml md : Q) (pref : string) :
  NoDup (map Res.key (rows (recommend_suppliers df cat mp ml md pref)))
  /\ (forall k,
        In k (map Res.key (rows (recommend_suppliers df cat mp ml md pref)))
        <-> exists r, In r (filtered_df df cat mp ml md pref)
                      /\ group_key (group_cols cat pref) r = k)
  /\ (List.length (rows (recommend_suppliers df cat mp ml md pref))
      <= List.length (filtered_df df cat mp ml md pref))%nat.
Proof.
  pose proof (rows_perm_grouped df cat mp ml md pref) as Hp.
  split; [|split].
  - apply (Permutation_NoDup (Permutation_sym (result_keys_perm df cat mp ml md pref))).
    apply sorted_keys_NoDup.
  - intros k. apply result_keys_In.
  - rewrite (Permutation_length Hp), grouped_length.
    rewrite <- (length_map (group_key (group_cols cat pref))).
    apply sorted_keys_length.
Qed.

(** ** The status counts *)

Lemma In_concat_singletons (ks : list (list string)) (s : string) :
  (forall k, In k ks -> exists t, k = [t]) ->
  (In s (List.concat ks) <-> In [s] ks).
Proof.
  induction ks as [|k ks IH]; intros Hs; simpl; [tauto|].
  destruct (Hs k (or_introl eq_refl)) as [t ->]. simpl.
  rewrite IH by (intros k Hk; apply Hs; now right).
  split; intros [H|H]; auto; left; congruence.
Qed.

Lemma NoDup_concat_singletons (ks : list (list string)) :
  (forall k, In k ks -> exists t, k = [t]) -> NoDup ks -> NoDup (List.concat ks).
Proof.
  intros Hs Hnd. induction Hnd as [|k ks Hk Hnd IH]; simpl; [constructor|].
  destruct (Hs k (or_introl eq_refl)) as [t ->]. simpl.
  assert (Hs' : forall k, In k ks -> exists t, k = [t]) by (intros k Hin; apply Hs; now right).
  constructor; [|now apply IH].
  intros Hin. apply Hk. now apply In_concat_singletons.
Qed.

Lemma sorted_keys_single {R : Type} (f : R -> string) (l : list R) (k : list string) :
  In k (Pd.sorted_keys (map (fun r => [f r]) l)) -> exists t, k = [t].
Proof.
  intros H. apply In_sorted_keys, in_map_iff in H as (r & <- & _). eauto.
Qed.

Lemma In_status_columns (df : list Row) (s : string) :
  In s (status_columns df) <-> exists r, In r df /\ Order_Status r = s.
Proof.
  unfold status_columns.
  rewrite In_concat_singletons by apply sorted_keys_single.
  rewrite In_sorted_keys, in_map_iff. split.
  - intros (r & Hr & Hin). exists r. split; [exact Hin|congruence].
  - intros (r & Hin & <-). eauto.
Qed.

Lemma status_columns_NoDup (df : list Row) : NoDup (status_columns df).
Proof.
  unfold status_columns. apply NoDup_concat_singletons.
  - apply sorted_keys_single.
  - apply sorted_keys_NoDup.
Qed.

(** X3: the left join of line 97 finds the counts of every group.  A row
    of a result has one count for every status column, none of them
    missing, and the counts add up to its [Total_Orders]. *)
Theorem status_counts_total (df : list Row) (cat : string) (mp ml md : Q) (pref : string)
  (row : Res.row) :
  In row (rows (recommend_suppliers df cat mp ml md pref)) ->
  exists counts : list nat,
    Res.status_counts row = map Some counts
    /\ List.length counts
       = List.length (status_columns (filtered_df df cat mp ml md pref))
    /\ Zsum (map Z.of_nat counts) = Z.of_nat (Res.Total_Orders row).
Proof.
  intros H. apply rows_of_recommend in H as (k & g & Hkg & ->).
  set (filtered := filtered_df df cat mp ml md pref) in *.
  set (cols := group_cols cat pref) in *.
  pose proof (groupby_group_nonempty _ _ _ _ Hkg) as [_ Hg].
  apply In_groupby in Hkg as (Eg & r & Hr & Hk).
  exists (map (fun s => List.length (filter (fun x => (Order_Status x =? s)%string) g))
            (status_columns filtered)).
  simpl. split; [|split].
  - unfold crosstab.
    rewrite (lookup_map_snd
               (fun g => map (fun s => List.length
                                         (filter (fun x => (Order_Status x =? s)%string) g))
                           (status_columns filtered))).
    rewrite <- Hk, (lookup_groupby_Some _ _ _ Hr), Hk, <- Eg. reflexivity.
  - apply length_map.
  - rewrite map_map, <- Zsum_ones.
    rewrite <- (Zsum_groups String.eqb String.eqb_eq Order_Status (fun _ => 1)
                  (status_columns filtered) g (status_columns_NoDup _)).
    + f_equal. apply map_ext. intros s. now rewrite Zsum_ones.
    + intros x Hx. apply In_status_columns. exists x. split; [|reflexivity].
      now apply Hg.
Qed.

(** ** What the query's texts select *)

(** X4: the category of a query is read without regard to case: two
    categories in ASCII text, neither of them "All", that differ by the
    case of their letters at most give the same result. *)
Theorem category_case_insensitive (df : list Row) (cat cat' : string) (mp ml md : Q)
  (pref : string) :
  cat <> "All"%string -> cat' <> "All"%string ->
  Py.is_ascii cat = true -> Py.is_ascii cat' = true ->
  equal_ignoring_case cat cat' = true ->
  recommend_suppliers df cat mp ml md pref = recommend_suppliers df cat' mp ml md pref.
Proof.
  intros H1 H2 _ _ Hl. apply lower_eq_iff in Hl. apply String.eqb_neq in H1, H2.
  unfold recommend_suppliers, filtered_df, filter_category, group_cols.
  now rewrite H1, H2, Hl.
Qed.

(** X5: lines 49-52 know the preferences "Yes" and "No" only.  Any other
    text, say "yes", filters nothing: the query keeps the rows the
    preference "All" keeps; and unless it is "All" itself the rows are
    grouped without the compliance. *)
Theorem preference_unrecognised (df : list Row) (cat : string) (mp ml md : Q) (pref : string) :
  pref <> "Yes"%string -> pref <> "No"%string ->
  filtered_df df cat mp ml md pref = filtered_df df cat mp ml md "All"
  /\ (pref <> "All"%string -> ~ In "Compliance"%string (group_cols cat pref)).
Proof.
  intros Hy Hn. split.
  - unfold filtered_df. rewrite !filter_compliance_other; auto; discriminate.
  - intros Ha Hin. now apply group_cols_members in Hin.
Qed.

(** ** Queries on the rows a query keeps *)

Lemma filter_compliance_as_filter (pref : string) (df : list Row) :
  filter_compliance pref df
  = filter (fun r => if (pref =? "Yes")%string then (Compliance r =? "Yes")%string
                     else if (pref =? "No")%string then (Compliance r =? "No")%string
                     else true) df.
Proof.
  unfold filter_compliance.
  destruct (pref =? "Yes")%string; [reflexivity|].
  destruct (pref =? "No")%string; [reflexivity|].
  symmetry. apply filter_true.
Qed.

Lemma filtered_df_keeps_row (df : list Row) (cat : string) (mp ml md : Q) (pref : string) :
  filtered_df df cat mp ml md pref = filter (keeps_row cat mp ml md pref) df.
Proof.
  unfold filtered_df, filter_thresholds.
  rewrite filter_compliance_as_filter, filter_category_filter, !filter_filter_and.
  reflexivity.
Qed.

Lemma keeps_row_mono (cat : string) (mp ml md mp' ml' md' : Q) (pref : string) (r : Row) :
  (mp' <= mp)%Q -> (ml' <= ml)%Q -> (md' <= md)%Q ->
  keeps_row cat mp' ml' md' pref r = true -> keeps_row cat mp ml md pref r = true.
Proof.
  intros Hp Hl Hd. unfold keeps_row. rewrite !andb_true_iff, !Qle_bool_iff.
  intros (Hc & Hq & (H1 & H2) & H3). repeat split; auto.
  - now apply Qle_trans with mp'.
  - now apply le_bound_mono with ml'.
  - now apply Qle_trans with md'.
Qed.

(** X6: a query put to the rows another query keeps.  With the same
    category and preference and thresholds that are no higher, the second
    query keeps of the kept rows what it keeps of the whole table; so a
    query put to its own kept rows returns its result again. *)
Theorem query_on_kept_rows (df : list Row) (cat : string) (mp ml md mp' ml' md' : Q)
  (pref : string) :
  (mp' <= mp)%Q -> (ml' <= ml)%Q -> (md' <= md)%Q ->
  filtered_df (filtered_df df cat mp ml md pref) cat mp' ml' md' pref
  = filtered_df df cat mp' ml' md' pref
  /\ recommend_suppliers (filtered_df df cat mp ml md pref) cat mp' ml' md' pref
     = recommend_suppliers df cat mp' ml' md' pref.
Proof.
  intros Hp Hl Hd.
  assert (E : filtered_df (filtered_df df cat mp ml md pref) cat mp' ml' md' pref
              = filtered_df df cat mp' ml' md' pref).
  { rewrite (filtered_df_keeps_row df cat mp ml md pref), filtered_df_of_filter.
    apply filter_all. intros x Hx.
    rewrite filtered_df_keeps_row in Hx. apply filter_In in Hx as [_ Hx].
    revert Hx. now apply keeps_row_mono. }
  split; [exact E|].
  now apply recommend_depends_on_filtered.
Qed.

(** ** The columns the preprocessing derives *)

Lemma round_near (q : Q) : (Qabs (inject_Z (Py.round q) - q) <= 1 # 2)%Q.
Proof.
  unfold Py.round.
  pose proof (Qfloor_le q) as Hlo. pose proof (Qlt_floor q) as Hhi.
  rewrite inject_Z_plus in Hhi. change (inject_Z 1) with 1%Q in Hhi.
  apply Qabs_Qle_condition.
  destruct (Qcompare_spec (q - inject_Z (Qfloor q)) (1 # 2)) as [E|E|E].
  - destruct (Z.even (Qfloor q)); rewrite ?inject_Z_plus;
      change (inject_Z 1) with 1%Q; split; lra.
  - split; lra.
  - rewrite inject_Z_plus. change (inject_Z 1) with 1%Q. split; lra.
Qed.

Lemma dt_days_timedelta (o n : Z) : Pd.dt_days (o + Pd.to_timedelta_D n - o) = n.
Proof.
  unfold Pd.dt_days, Pd.to_timedelta_D.
  replace (o + n * Pd.ns_per_day - o) with (n * Pd.ns_per_day) by lia.
  apply Z.div_mul. discriminate.
Qed.

(** X7: what the preprocessing leaves as it is, on a file that has a row.
    The table it returns has the rows of the file in their order; the
    texts, the quantity and the order date of a row are unchanged, both
    prices are multiplied by 16000, and a row that has a delivery date
    keeps it, its lead time being the whole days from the order to the
    delivery. *)
Theorem preprocess_frame (raw : list Csv.row) :
  raw <> [] ->
  exists df,
    preprocess raw = Py.Ok df
    /\ List.length df = List.length raw
    /\ forall i r,
         nth_error raw i = Some r ->
         exists row,
           nth_error df i = Some row
           /\ PO_ID row = Csv.PO_ID r /\ Supplier row = Csv.Supplier r
           /\ Item_Category row = Csv.Item_Category r /\ Compliance row = Csv.Compliance r
           /\ Order_Status row = Csv.Order_Status r /\ Quantity row = Csv.Quantity r
           /\ Order_Date row = Csv.Order_Date r
           /\ Unit_Price row = (Csv.Unit_Price r * 16000)%Q
           /\ Negotiated_Price row = (Csv.Negotiated_Price r * 16000)%Q
           /\ (forall d, Csv.Delivery_Date r = Some d ->
                 Delivery_Date row = Some d
                 /\ Lead_Time row = Some ((d - Csv.Order_Date r) / Pd.ns_per_day)).
Proof.
  intros _.
  destruct (preprocess_nth raw) as (df & Hok & Hlen & Hnth & _).
  exists df. split; [exact Hok|]. split; [exact Hlen|].
  intros i r Hi. exists (prepared raw r). split; [now apply Hnth|].
  repeat (split; [reflexivity|]).
  intros d Hd.
  assert (E : Delivery_Date (prepared raw r) = Some d)
    by (rewrite prepared_Delivery_Date, Hd; reflexivity).
  split; [exact E|]. rewrite prepared_Lead_Time, E. reflexivity.
Qed.

(** X8: the lead time once the imputation is done.  A row is left without
    a lead time exactly when it has no delivery date and no row of its
    supplier has one.  A row whose date is imputed has the lead time
    [round] of the supplier's mean, a whole number of days at most half a
    day off the mean. *)
Theorem lead_time_after_imputation (raw : list Csv.row) :
  exists df,
    preprocess raw = Py.Ok df
    /\ forall i r,
         nth_error raw i = Some r ->
         exists row,
           nth_error df i = Some row
           /\ (Lead_Time row = None <->
               Csv.Delivery_Date r = None
               /\ forall r', In r' raw -> Csv.Supplier r' = Csv.Supplier r ->
                             Csv.Delivery_Date r' = None)
           /\ (forall m,
                 Csv.Delivery_Date r = None ->
                 spec_mean_lead_time raw (Csv.Supplier r) = Some m ->
                 Lead_Time row = Some (Py.round m)
                 /\ (Qabs (inject_Z (Py.round m) - m) <= 1 # 2)%Q).
Proof.
  destruct (preprocess_nth raw) as (df & Hok & _ & Hnth & _).
  exists df. split; [exact Hok|].
  intros i r Hi. exists (prepared raw r). split; [now apply Hnth|].
  rewrite prepared_Lead_Time, prepared_Delivery_Date.
  rewrite <- spec_mean_lead_time_None.
  change (Order_Date (prepared raw r)) with (Csv.Order_Date r).
  split.
  - destruct (Csv.Delivery_Date r) as [d|].
    + simpl. split; [discriminate|]. intros [H _]. discriminate.
    + destruct (spec_mean_lead_time raw (Csv.Supplier r)) as [m|]; simpl.
      * split; [discriminate|]. intros [_ H]. discriminate.
      * split; auto.
  - intros m Hd Hm. rewrite Hd, Hm. simpl. split; [|apply round_near].
    now rewrite dt_days_timedelta.
Qed.

(** X9: the price efficiency is a percentage, and its division raises
    nothing.  For a row whose negotiated price lies between zero and a
    positive unit price (one below 10^300, which the conversion to rupiah
    leaves finite) [Price_Efficiency] is a number between 0 and 100; for a
    row with the unit price zero it is no finite number.  Both bounds are
    ones that rounding to float64 keeps: the quotient of two rounded
    products in this order lies between 0 and 1. *)
Theorem price_efficiency_percentage (raw : list Csv.row) :
  exists df,
    preprocess raw = Py.Ok df
    /\ forall i r,
         nth_error raw i = Some r ->
         exists row,
           nth_error df i = Some row
           /\ ((Csv.Unit_Price r == 0)%Q -> Pd.finite_part (Price_Efficiency row) = None)
           /\ ((0 <= Csv.Negotiated_Price r)%Q ->
               (Csv.Negotiated_Price r <= Csv.Unit_Price r)%Q ->
               (0 < Csv.Unit_Price r)%Q -> (Csv.Unit_Price r <= 10 ^ 300)%Q ->
               exists v,
                 Price_Efficiency row = Pd.Fin v /\ (0 <= v)%Q /\ (v <= 100)%Q).
Proof.
  destruct (preprocess_nth raw) as (df & Hok & _ & Hnth & _).
  exists df. split; [exact Hok|].
  intros i r Hi. exists (prepared raw r). split; [now apply Hnth|].
  unfold prepared, make_row, price_efficiency, usd_to_idr. simpl.
  set (u := Csv.Unit_Price r). set (n := Csv.Negotiated_Price r).
  destruct (Qeq_bool (u * 16000) 0) eqn:E.
  - apply Qeq_bool_iff in E.
    assert (U0 : (u == 0)%Q) by lra.
    split.
    + intros _. now destruct (Qeq_bool (n * 16000) 0).
    + intros _ _ Hu _. exfalso. rewrite U0 in Hu. discriminate.
  - assert (U0 : ~ (u == 0)%Q).
    { intros H. rewrite H in E. discriminate. }
    split; [intros H; contradiction|].
    intros Hn Hnu Hu _. eexists. split; [reflexivity|].
    assert (Ev : ((1 - n * 16000 / (u * 16000)) * 100 == (1 - n / u) * 100)%Q)
      by (field; exact U0).
    rewrite Ev.
    assert (H0 : (0 <= n / u)%Q) by (apply Qle_shift_div_l; [exact Hu|lra]).
    assert (H1 : (n / u <= 1)%Q) by (apply Qle_shift_div_r; [exact Hu|lra]).
    split; lra.
Qed.

(** X10: the defect rate is a percentage.  For a row whose count of
    defective units, taken as zero when missing, lies between zero and the
    quantity, [Defect_Rate] lies between 0 and 100. *)
Theorem defect_rate_percentage (raw : list Csv.row) :
  exists df,
    preprocess raw = Py.Ok df
    /\ forall i r,
         nth_error raw i = Some r ->
         0 <= fillna0 (Csv.Defective_Units r) <= Csv.Quantity r ->
         exists row,
           nth_error df i = Some row
           /\ (0 <= Defect_Rate row)%Q /\ (Defect_Rate row <= 100)%Q.
Proof.
  destruct (preprocess_nth raw) as (df & Hok & _ & Hnth & _).
  exists df. split; [exact Hok|].
  intros i r Hi Hb. exists (prepared raw r). split; [now apply Hnth|].
  unfold prepared. simpl. rewrite defect_rate_Ok. simpl.
  destruct (Csv.Quantity r =? 0) eqn:E; [split; discriminate|].
  apply Z.eqb_neq in E.
  set (d := fillna0 (Csv.Defective_Units r)) in *. set (q := Csv.Quantity r) in *.
  assert (Hq : (0 < inject_Z q)%Q) by (change 0%Q with (inject_Z 0); rewrite <- Zlt_Qlt; lia).
  assert (Hd0 : (0 <= inject_Z d)%Q) by (change 0%Q with (inject_Z 0); rewrite <- Zle_Qle; lia).
  assert (Hdq : (inject_Z d <= inject_Z q)%Q) by (rewrite <- Zle_Qle; lia).
  assert (H0 : (0 <= inject_Z d / inject_Z q)%Q) by (apply Qle_shift_div_l; [exact Hq|lra]).
  assert (H1 : (inject_Z d / inject_Z q <= 1)%Q) by (apply Qle_shift_div_r; [exact Hq|lra]).
  split; lra.
Qed.

(** X11: line 25 raises on no row.  Every entry of the series of line 20
    is a number, the mean of at least one lead time, so [round] never gets
    a NaN; a supplier is in the series exactly when one of its rows has a
    delivery date. *)
Theorem mean_lead_time_entries (raw : list Csv.row) (s : string) :
  (forall x, Pd.lookup [s] (mean_lead_time raw) = Some x ->
             exists m, x = Some m /\ spec_mean_lead_time raw s = Some m)
  /\ (Pd.lookup [s] (mean_lead_time raw) = None <->
      forall r, In r raw -> Csv.Supplier r = s -> Csv.Delivery_Date r = None)
  /\ (forall r, exists v, isi_delivery_date (mean_lead_time raw) r = Py.Ok v).
Proof.
  assert (Hl := lookup_mean_lead_time raw s).
  assert (Hsm : spec_mean_lead_time raw s
                = Pd.series_mean
                    (map Lead_Time0
                       (filter (fun r => has_delivery r && (Csv.Supplier r =? s)%string) raw))).
  { unfold spec_mean_lead_time, Pd.series_mean. now rewrite dropna_lead_refs. }
  pose proof (refs_mean_Some s raw) as Hsome.
  split; [|split].
  - intros x Hx. rewrite Hx in Hl. rewrite Hsm.
    destruct (filter (fun r => has_delivery r && (Csv.Supplier r =? s)%string) raw)
      as [|r0 refs]; [discriminate|].
    destruct Hsome as [m Hm]; [discriminate|].
    injection Hl as ->. eauto.
  - rewrite <- spec_mean_lead_time_None, Hsm, Hl.
    destruct (filter (fun r => has_delivery r && (Csv.Supplier r =? s)%string) raw)
      as [|r0 refs].
    + split; reflexivity.
    + destruct Hsome as [m Hm]; [discriminate|]. rewrite Hm. split; discriminate.
  - intros r. rewrite isi_delivery_date_Ok. eauto.
Qed.

(** ** The search and its alternatives *)

Lemma empty_recommend (df : list Row) (cat : string) (mp ml md : Q) (pref : string) :
  empty (recommend_suppliers df cat mp ml md pref) = true
  <-> filtered_df df cat mp ml md pref = [].
Proof.
  split.
  - intros He. destruct (filtered_df df cat mp ml md pref) as [|r f] eqn:E; [reflexivity|].
    exfalso.
    destruct (recommend_rows_nonempty df cat mp ml md pref) as [Hr Hc];
      [rewrite E; discriminate|].
    unfold empty in He. apply orb_true_iff in He as [He|He]; apply Nat.eqb_eq in He.
    + destruct (rows _); [congruence|discriminate].
    + destruct (columns _); [congruence|discriminate].
  - intros E. unfold recommend_suppliers. rewrite E. reflexivity.
Qed.

Lemma relaxed_incl (df : list Row) (cat : string) (mp ml md : Q) (pref : string) :
  (0 <= mp)%Q ->
  incl (filtered_df df cat mp ml md pref)
    (filtered_df df cat (toleransi_price mp) (toleransi_lead ml) (toleransi_defect md) pref).
Proof.
  intros Hmp r. rewrite !filtered_df_keeps_row, !filter_In.
  intros [Hin Hk]. split; [exact Hin|].
  revert Hk. apply keeps_row_mono;
    unfold toleransi_price, toleransi_lead, toleransi_defect; lra.
Qed.

(** X13: what the search shows, for a price limit that is not negative.
    It shows the result when the query keeps a row; failing that, the
    alternatives with their notes, at least one, when the relaxed query
    keeps a row; and the message that there is none exactly when the
    relaxed query keeps no row.  The relaxed query keeps every row the
    query keeps. *)
Theorem search_outcome (float_str : Q -> string) (df : list Row) (cat : string)
  (mp ml md : Q) (pref : string) :
  (0 <= mp)%Q ->
  (filtered_df df cat mp ml md pref <> [] ->
   cari_supplier float_str df cat mp ml md pref
   = Hasil (recommend_suppliers df cat mp ml md pref))
  /\ (filtered_df df cat mp ml md pref = [] ->
      filtered_df df cat (toleransi_price mp) (toleransi_lead ml) (toleransi_defect md) pref
      <> [] ->
      exists catatan,
        cari_supplier float_str df cat mp ml md pref = Alternatif catatan
        /\ catatan <> []
        /\ map fst catatan
           = rows (recommend_suppliers df cat (toleransi_price mp) (toleransi_lead ml)
                     (toleransi_defect md) pref)
        /\ forall row note, In (row, note) catatan ->
                            note = alasan float_str mp ml md row)
  /\ (cari_supplier float_str df cat mp ml md pref = TidakAdaAlternatif <->
      filtered_df df cat (toleransi_price mp) (toleransi_lead ml) (toleransi_defect md) pref
      = [])
  /\ incl (filtered_df df cat mp ml md pref)
       (filtered_df df cat (toleransi_price mp) (toleransi_lead ml) (toleransi_defect md)
          pref).
Proof.
  intros Hmp. pose proof (relaxed_incl df cat mp ml md pref Hmp) as Hincl.
  pose proof (empty_recommend df cat mp ml md pref) as He.
  pose proof (empty_recommend df cat (toleransi_price mp) (toleransi_lead ml)
                (toleransi_defect md) pref) as Her.
  unfold cari_supplier.
  split; [|split; [|split; [|exact Hincl]]].
  - intros Hne. destruct (empty (recommend_suppliers df cat mp ml md pref)); [|reflexivity].
    exfalso. apply Hne. now apply He.
  - intros Hnil Hne. rewrite (proj2 He Hnil).
    destruct (empty (recommend_suppliers df cat (toleransi_price mp) (toleransi_lead ml)
                       (toleransi_defect md) pref)) eqn:E.
    + exfalso. apply Hne. now apply Her.
    + eexists. split; [reflexivity|]. split; [|split].
      * destruct (recommend_rows_nonempty df cat (toleransi_price mp) (toleransi_lead ml)
                    (toleransi_defect md) pref Hne) as [Hr _].
        intros Hm. apply Hr. now apply map_eq_nil in Hm.
      * rewrite map_map. simpl. apply map_id.
      * intros row note Hin. apply in_map_iff in Hin as (x & Hx & _). congruence.
  - destruct (empty (recommend_suppliers df cat mp ml md pref)) eqn:E.
    + destruct (empty (recommend_suppliers df cat (toleransi_price mp) (toleransi_lead ml)
                         (toleransi_defect md) pref)) eqn:E'.
      * split; [intros _; now apply Her|reflexivity].
      * split; [discriminate|]. intros H. apply Her in H. congruence.
    + split; [discriminate|]. intros Hnil. exfalso.
      assert (Hn : filtered_df df cat mp ml md pref = []).
      { destruct (filtered_df df cat mp ml md pref) as [|r f] eqn:F; [reflexivity|].
        assert (Hr : In r (r :: f)) by now left.
        apply Hincl in Hr. rewrite Hnil in Hr. contradiction. }
      apply He in Hn. congruence.
Qed.

Lemma join_nonempty (x : string) (l : list string) :
  In x l -> x <> ""%string -> Py.join ", " l <> ""%string.
Proof.
  unfold Py.join. destruct l as [|y [|z l]]; simpl.
  - contradiction.
  - intros [->|[]]. auto.
  - intros _ _. destruct y; discriminate.
Qed.

(** X14: an alternative that breaks a limit of the query says so.  If the
    mean defect rate, the mean price or the mean lead time of a row of the
    alternatives lies above the limit the user gave, the note of the row
    is not empty. *)
Theorem alternative_has_note (float_str : Q -> string) (df : list Row) (cat : string)
  (mp ml md : Q) (pref : string) (row : Res.row) :
  In row (rows (recommend_suppliers df cat (toleransi_price mp) (toleransi_lead ml)
                  (toleransi_defect md) pref)) ->
  (exists d, Res.Defect_Rate_pct row = Some d /\ (md < d)%Q)
  \/ (exists p, Res.Avg_Negotiated_Price row = Some p /\ (mp < p)%Q)
  \/ (exists l, Res.Lead_Time row = Some l /\ (ml < l)%Q) ->
  alasan float_str mp ml md row <> ""%string.
Proof.
  intros Hin Hv. unfold alasan.
  destruct Hv as [(d & Hd & Hlt)|[(p & Hp & Hlt)|(l & Hl & Hlt)]].
  - apply (join_nonempty (catatan_mendekati d)); [|discriminate].
    apply in_or_app. left.
    destruct (alasan_defect_cases md row d Hd) as (Hnear & _).
    rewrite Hnear; [now left|].
    apply result_row_numbers in Hin as (d' & _ & _ & [Hd' Hle] & _).
    rewrite Hd in Hd'. injection Hd' as <-.
    now apply near_threshold.
  - apply (join_nonempty ("Harga " ++ Py.format_comma (Py.int p) ++ " > "
                          ++ Py.format_comma (Py.int mp))%string); [|discriminate].
    apply in_or_app. right. apply in_or_app. left.
    unfold alasan_price, Qgt_bool. rewrite Hp.
    destruct (Qle_bool p mp) eqn:E; [|now left].
    apply Qle_bool_iff in E. exfalso. now apply (Qlt_not_le mp p).
  - apply (join_nonempty ("Lead Time " ++ float_str l ++ " hari")%string); [|discriminate].
    apply in_or_app. right. apply in_or_app. right.
    unfold alasan_lead, Qgt_bool. rewrite Hl.
    destruct (Qle_bool l ml) eqn:E; [|now left].
    apply Qle_bool_iff in E. exfalso. now apply (Qlt_not_le ml l).
Qed.

(** ** The category select box *)

Lemma compare_key_single (a b : string) : Pd.compare_key [a] [b] = String.compare a b.
Proof. simpl. now destruct (String.compare a b). Qed.

Lemma concat_singletons_sorted (ks : list (list string)) :
  (forall k, In k ks -> exists t, k = [t]) ->
  StronglySorted key_lt ks ->
  StronglySorted (fun a b => String.compare a b = Lt) (List.concat ks).
Proof.
  intros Hs Hsort. induction Hsort as [|k ks Hsort IH Hk]; simpl; [constructor|].
  destruct (Hs k (or_introl eq_refl)) as [t ->]. simpl.
  assert (Hs' : forall k, In k ks -> exists t, k = [t]) by (intros k Hin; apply Hs; now right).
  constructor; [now apply IH|].
  apply Forall_forall. intros y Hy. apply In_concat_singletons in Hy; [|exact Hs'].
  rewrite Forall_forall in Hk. specialize (Hk _ Hy).
  unfold key_lt in Hk. now rewrite compare_key_single in Hk.
Qed.

(** X15: the options of the category select box.  After "All" come the
    categories of the table, each once, in ascending order; and an option
    other than "All" always selects a row: the category filter of lines
    46-47 keeps every row of that category, so it keeps one. *)
Theorem item_categories_options (df : list Row) :
  exists cats,
    item_categories df = "All"%string :: cats
    /\ StronglySorted (fun a b => String.compare a b = Lt) cats
    /\ (forall c, In c cats <-> exists r, In r df /\ Item_Category r = c)
    /\ (forall c, In c cats -> c <> "All"%string ->
          filter_category c df <> []
          /\ forall r, In r df -> Item_Category r = c -> In r (filter_category c df)).
Proof.
  eexists. split; [reflexivity|].
  assert (Hmem : forall c,
            In c (List.concat (Pd.sorted_keys (map (fun r => [Item_Category r]) df)))
            <-> exists r, In r df /\ Item_Category r = c).
  { intros c. rewrite In_concat_singletons by apply sorted_keys_single.
    rewrite In_sorted_keys, in_map_iff. split.
    - intros (r & Hr & Hin). exists r. split; [exact Hin|congruence].
    - intros (r & Hin & <-). eauto. }
  split; [|split; [exact Hmem|]].
  - apply concat_singletons_sorted; [apply sorted_keys_single|apply sorted_keys_sorted].
  - intros c Hc Hall.
    assert (Hkeep : forall r, In r df -> Item_Category r = c -> In r (filter_category c df)).
    { intros r Hr Hcat. unfold filter_category.
      apply String.eqb_neq in Hall. rewrite Hall. simpl.
      apply filter_In. split; [exact Hr|]. rewrite Hcat. apply String.eqb_refl. }
    split; [|exact Hkeep].
    apply Hmem in Hc as (r & Hr & Hcat). intros Hnil.
    specialize (Hkeep r Hr Hcat). rewrite Hnil in Hkeep. contradiction.
Qed.

(** ** Relaxing a query *)

(** X16: a higher limit never loses a group.  With the same category and
    preference and thresholds that are no lower, every group key of the
    result is a group key of the new result. *)
Theorem relaxing_keeps_groups (df : list Row) (cat : string) (mp ml md mp' ml' md' : Q)
  (pref : string) (k : list string) :
  (mp <= mp')%Q -> (ml <= ml')%Q -> (md <= md')%Q ->
  In k (map Res.key (rows (recommend_suppliers df cat mp ml md pref))) ->
  In k (map Res.key (rows (recommend_suppliers df cat mp' ml' md' pref))).
Proof.
  intros Hp Hl Hd. rewrite !result_keys_In.
  intros (r & Hin & Hk). exists r. split; [|exact Hk].
  revert Hin. rewrite !filtered_df_keeps_row, !filter_In.
  intros [Hin Hkeep]. split; [exact Hin|].
  revert Hkeep. now apply keeps_row_mono.
Qed.

(** ** The further properties at sample inputs *)

Lemma status_counts_total_witness :
  In baris_delta
    (rows (recommend_suppliers contoh_alternatif "All" (toleransi_price 200000)
             (toleransi_lead 10) (toleransi_defect 5) "All"))
  /\ exists counts : list nat,
       Res.status_counts baris_delta = map Some counts
       /\ Zsum (map Z.of_nat counts) = Z.of_nat (Res.Total_Orders baris_delta).
Proof.
  assert (Hin : In baris_delta
                  (rows (recommend_suppliers contoh_alternatif "All" (toleransi_price 200000)
                           (toleransi_lead 10) (toleransi_defect 5) "All")))
    by (vm_compute; right; left; reflexivity).
  split; [exact Hin|].
  destruct (status_counts_total _ _ _ _ _ _ _ Hin) as (counts & H1 & _ & H3).
  exists counts. split; assumption.
Defined.

Lemma category_case_insensitive_witness :
  "office"%string <> "All"%string /\ "OFFICE"%string <> "All"%string
  /\ Py.is_ascii "office" = true /\ Py.is_ascii "OFFICE" = true
  /\ equal_ignoring_case "office" "OFFICE" = true
  /\ recommend_suppliers contoh_urut "office" 200000 10 5 "All"
     = recommend_suppliers contoh_urut "OFFICE" 200000 10 5 "All".
Proof.
  assert (H1 : "office"%string <> "All"%string) by discriminate.
  assert (H2 : "OFFICE"%string <> "All"%string) by discriminate.
  assert (H3 : Py.is_ascii "office" = true) by reflexivity.
  assert (H4 : Py.is_ascii "OFFICE" = true) by reflexivity.
  assert (H5 : equal_ignoring_case "office" "OFFICE" = true) by reflexivity.
  repeat (split; [assumption|]).
  exact (category_case_insensitive contoh_urut _ _ 200000 10 5 "All" H1 H2 H3 H4 H5).
Defined.

Lemma preference_unrecognised_witness :
  "yes"%string <> "Yes"%string /\ "yes"%string <> "No"%string
  /\ filtered_df contoh_urut "All" 200000 10 5 "yes"
     = filtered_df contoh_urut "All" 200000 10 5 "All".
Proof.
  assert (H1 : "yes"%string <> "Yes"%string) by discriminate.
  assert (H2 : "yes"%string <> "No"%string) by discriminate.
  repeat (split; [assumption|]).
  exact (proj1 (preference_unrecognised contoh_urut "All" 200000 10 5 "yes" H1 H2)).
Defined.

Lemma query_on_kept_rows_witness :
  (200000 <= 200000)%Q /\ (3 <= 10)%Q /\ (2 <= 5)%Q
  /\ recommend_suppliers (filtered_df contoh_urut "All" 200000 10 5 "All") "All" 200000 3 2
       "All"
     = recommend_suppliers contoh_urut "All" 200000 3 2 "All".
Proof.
  assert (H1 : (200000 <= 200000)%Q) by discriminate.
  assert (H2 : (3 <= 10)%Q) by discriminate.
  assert (H3 : (2 <= 5)%Q) by discriminate.
  repeat (split; [assumption|]).
  exact (proj2 (query_on_kept_rows contoh_urut "All" 200000 10 5 200000 3 2 "All" H1 H2 H3)).
Defined.

Lemma preprocess_frame_witness :
  contoh_urut_csv <> []
  /\ exists df, preprocess contoh_urut_csv = Py.Ok df
                /\ List.length df = List.length contoh_urut_csv.
Proof.
  assert (Hne : contoh_urut_csv <> []) by discriminate.
  split; [exact Hne|].
  destruct (preprocess_frame contoh_urut_csv Hne) as (df & Hok & Hlen & _).
  exists df. split; assumption.
Defined.

Lemma search_outcome_witness :
  (0 <= 200000)%Q
  /\ incl (filtered_df contoh_alternatif "All" 200000 10 5 "All")
       (filtered_df contoh_alternatif "All" (toleransi_price 200000) (toleransi_lead 10)
          (toleransi_defect 5) "All").
Proof.
  assert (H : (0 <= 200000)%Q) by discriminate.
  split; [exact H|].
  exact (proj2 (proj2 (proj2 (search_outcome Py.format_1f contoh_alternatif "All" 200000 10 5
                                "All" H)))).
Defined.

Lemma alternative_has_note_witness :
  In baris_delta
    (rows (recommend_suppliers contoh_alternatif "All" (toleransi_price 200000)
             (toleransi_lead 10) (toleransi_defect 5) "All"))
  /\ (exists d, Res.Defect_Rate_pct baris_delta = Some d /\ (5 < d)%Q)
  /\ alasan Py.format_1f 200000 10 5 baris_delta <> ""%string.
Proof.
  assert (Hin : In baris_delta
                  (rows (recommend_suppliers contoh_alternatif "All" (toleransi_price 200000)
                           (toleransi_lead 10) (toleransi_defect 5) "All")))
    by (vm_compute; right; left; reflexivity).
  assert (Hd : exists d, Res.Defect_Rate_pct baris_delta = Some d /\ (5 < d)%Q)
    by (exists (1300 # 200)%Q; split; reflexivity).
  split; [exact Hin|]. split; [exact Hd|].
  exact (alternative_has_note Py.format_1f _ _ _ _ _ _ _ Hin (or_introl Hd)).
Defined.

Lemma relaxing_keeps_groups_witness :
  (200000 <= 200000)%Q /\ (10 <= 10)%Q /\ (2 <= 5)%Q
  /\ In ["Beta"; "Office"; "Yes"]%string
       (map Res.key (rows (recommend_suppliers contoh_urut "All" 200000 10 2 "All")))
  /\ In ["Beta"; "Office"; "Yes"]%string
       (map Res.key (rows (recommend_suppliers contoh_urut "All" 200000 10 5 "All"))).
Proof.
  assert (H1 : (200000 <= 200000)%Q) by discriminate.
  assert (H2 : (10 <= 10)%Q) by discriminate.
  assert (H3 : (2 <= 5)%Q) by discriminate.
  assert (Hin : In ["Beta"; "Office"; "Yes"]%string
                  (map Res.key (rows (recommend_suppliers contoh_urut "All" 200000 10 2 "All"))))
    by (vm_compute; left; reflexivity).
  repeat (split; [assumption|]).
  exact (relaxing_keeps_groups contoh_urut "All" 200000 10 2 200000 10 5 "All" _ H1 H2 H3 Hin).
Defined.

